(** * Profile extraction and knowledge retrieval of the LINE AI agent

    A shallow embedding of [app/persona_analyzer.py] (persona analysis),
    [app/knowledge_base.py] (ranked search of success cases and FAQs) and
    [app/ai_engine.py] (context prompt and message assembly).

    Python strings are modelled as Rocq [string]s holding their UTF-8 bytes.
    Since UTF-8 is self-synchronising, [k in s] on code points coincides with
    byte-level substring search, which is what [py_in] implements. *)

From Stdlib Require Import ZArith Lia Sorting.Sorted.
From stdpp Require Import base list strings gmap sets.

Local Open Scope Z_scope.

(* ------------------------------------------------------------------ *)
(** ** Python string helpers *)

(** [prefixb k s]: [s.startswith(k)]. *)
Fixpoint prefixb (k s : string) : bool :=
  match k, s with
  | EmptyString, _ => true
  | String a k', String b s' => Ascii.eqb a b && prefixb k' s'
  | _, _ => false
  end.

(** [py_in k s]: Python's [k in s] on strings. *)
Fixpoint py_in (k s : string) : bool :=
  prefixb k s ||
  match s with
  | EmptyString => false
  | String _ s' => py_in k s'
  end.

(** [sep.join(l)]. *)
Fixpoint py_join (sep : string) (l : list string) : string :=
  match l with
  | [] => ""
  | [x] => x
  | x :: xs => x +:+ sep +:+ py_join sep xs
  end.

(** Truthiness of an [Optional[str]]: [None] and [""] are falsy. *)
Definition str_truthy (o : option string) : bool :=
  match o with
  | Some (String _ _) => true
  | _ => false
  end.

(** [x in l] for a list of strings. *)
Definition py_list_in (x : string) (l : list string) : bool :=
  existsb (String.eqb x) l.

(** [str.lower()].  Python lowers a string code point by code point with
    the Unicode lowercase mapping, with one contextual rule: a capital
    sigma that follows a cased letter and is not followed by one (skipping
    case-ignorable characters on both sides) becomes the final form U+03C2.
    The tables are those of Unicode 14.0, the character database of
    CPython 3.11.  The string is decoded from UTF-8, lowered, and encoded
    again; a byte that does not start a well-formed sequence (which a string
    encoded from Python never holds) is kept as it is. *)

(** Runs [(lo, hi, step, delta)]: each of the code points
    [lo, lo + step, ..., hi] lowers to itself plus [delta]; every other
    code point except U+0130 lowers to itself. *)
Definition lower_runs : list (Z * Z * Z * Z) := [
  (65, 90, 1, 32); (192, 214, 1, 32); (216, 222, 1, 32); (256, 302, 2, 1);
  (306, 310, 2, 1); (313, 327, 2, 1); (330, 374, 2, 1); (376, 376, 1, -121);
  (377, 381, 2, 1); (385, 385, 1, 210); (386, 388, 2, 1); (390, 390, 1, 206);
  (391, 391, 1, 1); (393, 394, 1, 205); (395, 395, 1, 1); (398, 398, 1, 79);
  (399, 399, 1, 202); (400, 400, 1, 203); (401, 401, 1, 1); (403, 403, 1, 205);
  (404, 404, 1, 207); (406, 406, 1, 211); (407, 407, 1, 209); (408, 408, 1, 1);
  (412, 412, 1, 211); (413, 413, 1, 213); (415, 415, 1, 214); (416, 420, 2, 1);
  (422, 422, 1, 218); (423, 423, 1, 1); (425, 425, 1, 218); (428, 428, 1, 1);
  (430, 430, 1, 218); (431, 431, 1, 1); (433, 434, 1, 217); (435, 437, 2, 1);
  (439, 439, 1, 219); (440, 440, 1, 1); (444, 444, 1, 1); (452, 452, 1, 2);
  (453, 453, 1, 1); (455, 455, 1, 2); (456, 456, 1, 1); (458, 458, 1, 2);
  (459, 475, 2, 1); (478, 494, 2, 1); (497, 497, 1, 2); (498, 500, 2, 1);
  (502, 502, 1, -97); (503, 503, 1, -56); (504, 542, 2, 1); (544, 544, 1, -130);
  (546, 562, 2, 1); (570, 570, 1, 10795); (571, 571, 1, 1); (573, 573, 1, -163);
  (574, 574, 1, 10792); (577, 577, 1, 1); (579, 579, 1, -195); (580, 580, 1, 69);
  (581, 581, 1, 71); (582, 590, 2, 1); (880, 882, 2, 1); (886, 886, 1, 1);
  (895, 895, 1, 116); (902, 902, 1, 38); (904, 906, 1, 37); (908, 908, 1, 64);
  (910, 911, 1, 63); (913, 929, 1, 32); (931, 939, 1, 32); (975, 975, 1, 8);
  (984, 1006, 2, 1); (1012, 1012, 1, -60); (1015, 1015, 1, 1); (1017, 1017, 1, -7);
  (1018, 1018, 1, 1); (1021, 1023, 1, -130); (1024, 1039, 1, 80); (1040, 1071, 1, 32);
  (1120, 1152, 2, 1); (1162, 1214, 2, 1); (1216, 1216, 1, 15); (1217, 1229, 2, 1);
  (1232, 1326, 2, 1); (1329, 1366, 1, 48); (4256, 4293, 1, 7264); (4295, 4295, 1, 7264);
  (4301, 4301, 1, 7264); (5024, 5103, 1, 38864); (5104, 5109, 1, 8); (7312, 7354, 1, -3008);
  (7357, 7359, 1, -3008); (7680, 7828, 2, 1); (7838, 7838, 1, -7615); (7840, 7934, 2, 1);
  (7944, 7951, 1, -8); (7960, 7965, 1, -8); (7976, 7983, 1, -8); (7992, 7999, 1, -8);
  (8008, 8013, 1, -8); (8025, 8031, 2, -8); (8040, 8047, 1, -8); (8072, 8079, 1, -8);
  (8088, 8095, 1, -8); (8104, 8111, 1, -8); (8120, 8121, 1, -8); (8122, 8123, 1, -74);
  (8124, 8124, 1, -9); (8136, 8139, 1, -86); (8140, 8140, 1, -9); (8152, 8153, 1, -8);
  (8154, 8155, 1, -100); (8168, 8169, 1, -8); (8170, 8171, 1, -112); (8172, 8172, 1, -7);
  (8184, 8185, 1, -128); (8186, 8187, 1, -126); (8188, 8188, 1, -9); (8486, 8486, 1, -7517);
  (8490, 8490, 1, -8383); (8491, 8491, 1, -8262); (8498, 8498, 1, 28); (8544, 8559, 1, 16);
  (8579, 8579, 1, 1); (9398, 9423, 1, 26); (11264, 11311, 1, 48); (11360, 11360, 1, 1);
  (11362, 11362, 1, -10743); (11363, 11363, 1, -3814); (11364, 11364, 1, -10727); (11367, 11371, 2, 1);
  (11373, 11373, 1, -10780); (11374, 11374, 1, -10749); (11375, 11375, 1, -10783); (11376, 11376, 1, -10782);
  (11378, 11378, 1, 1); (11381, 11381, 1, 1); (11390, 11391, 1, -10815); (11392, 11490, 2, 1);
  (11499, 11501, 2, 1); (11506, 11506, 1, 1); (42560, 42604, 2, 1); (42624, 42650, 2, 1);
  (42786, 42798, 2, 1); (42802, 42862, 2, 1); (42873, 42875, 2, 1); (42877, 42877, 1, -35332);
  (42878, 42886, 2, 1); (42891, 42891, 1, 1); (42893, 42893, 1, -42280); (42896, 42898, 2, 1);
  (42902, 42920, 2, 1); (42922, 42922, 1, -42308); (42923, 42923, 1, -42319); (42924, 42924, 1, -42315);
  (42925, 42925, 1, -42305); (42926, 42926, 1, -42308); (42928, 42928, 1, -42258); (42929, 42929, 1, -42282);
  (42930, 42930, 1, -42261); (42931, 42931, 1, 928); (42932, 42946, 2, 1); (42948, 42948, 1, -48);
  (42949, 42949, 1, -42307); (42950, 42950, 1, -35384); (42951, 42953, 2, 1); (42960, 42960, 1, 1);
  (42966, 42968, 2, 1); (42997, 42997, 1, 1); (65313, 65338, 1, 32); (66560, 66599, 1, 40);
  (66736, 66771, 1, 40); (66928, 66938, 1, 39); (66940, 66954, 1, 39); (66956, 66962, 1, 39);
  (66964, 66965, 1, 39); (68736, 68786, 1, 64); (71840, 71871, 1, 32); (93760, 93791, 1, 32);
  (125184, 125217, 1, 34)
].

(** Cased characters that are not case-ignorable (those that are both
    play no part in the sigma rule). *)
Definition cased_ranges : list (Z * Z) := [
  (65, 90); (97, 122); (170, 170); (181, 181); (186, 186); (192, 214);
  (216, 246); (248, 442); (444, 447); (452, 659); (661, 687); (880, 883);
  (886, 887); (891, 893); (895, 895); (902, 902); (904, 906); (908, 908);
  (910, 929); (931, 1013); (1015, 1153); (1162, 1327); (1329, 1366); (1376, 1416);
  (4256, 4293); (4295, 4295); (4301, 4301); (4304, 4346); (4349, 4351); (5024, 5109);
  (5112, 5117); (7296, 7304); (7312, 7354); (7357, 7359); (7424, 7467); (7531, 7543);
  (7545, 7578); (7680, 7957); (7960, 7965); (7968, 8005); (8008, 8013); (8016, 8023);
  (8025, 8025); (8027, 8027); (8029, 8029); (8031, 8061); (8064, 8116); (8118, 8124);
  (8126, 8126); (8130, 8132); (8134, 8140); (8144, 8147); (8150, 8155); (8160, 8172);
  (8178, 8180); (8182, 8188); (8450, 8450); (8455, 8455); (8458, 8467); (8469, 8469);
  (8473, 8477); (8484, 8484); (8486, 8486); (8488, 8488); (8490, 8493); (8495, 8500);
  (8505, 8505); (8508, 8511); (8517, 8521); (8526, 8526); (8544, 8575); (8579, 8580);
  (9398, 9449); (11264, 11387); (11390, 11492); (11499, 11502); (11506, 11507); (11520, 11557);
  (11559, 11559); (11565, 11565); (42560, 42605); (42624, 42651); (42786, 42863); (42865, 42887);
  (42891, 42894); (42896, 42954); (42960, 42961); (42963, 42963); (42965, 42969); (42997, 42998);
  (43002, 43002); (43824, 43866); (43872, 43880); (43888, 43967); (64256, 64262); (64275, 64279);
  (65313, 65338); (65345, 65370); (66560, 66639); (66736, 66771); (66776, 66811); (66928, 66938);
  (66940, 66954); (66956, 66962); (66964, 66965); (66967, 66977); (66979, 66993); (66995, 67001);
  (67003, 67004); (68736, 68786); (68800, 68850); (71840, 71903); (93760, 93823); (119808, 119892);
  (119894, 119964); (119966, 119967); (119970, 119970); (119973, 119974); (119977, 119980); (119982, 119993);
  (119995, 119995); (119997, 120003); (120005, 120069); (120071, 120074); (120077, 120084); (120086, 120092);
  (120094, 120121); (120123, 120126); (120128, 120132); (120134, 120134); (120138, 120144); (120146, 120485);
  (120488, 120512); (120514, 120538); (120540, 120570); (120572, 120596); (120598, 120628); (120630, 120654);
  (120656, 120686); (120688, 120712); (120714, 120744); (120746, 120770); (120772, 120779); (122624, 122633);
  (122635, 122654); (125184, 125251); (127280, 127305); (127312, 127337); (127344, 127369)
].

(** Case-ignorable characters. *)
Definition case_ignorable_ranges : list (Z * Z) := [
  (39, 39); (46, 46); (58, 58); (94, 94); (96, 96); (168, 168);
  (173, 173); (175, 175); (180, 180); (183, 184); (688, 879); (884, 885);
  (890, 890); (900, 901); (903, 903); (1155, 1161); (1369, 1369); (1375, 1375);
  (1425, 1469); (1471, 1471); (1473, 1474); (1476, 1477); (1479, 1479); (1524, 1524);
  (1536, 1541); (1552, 1562); (1564, 1564); (1600, 1600); (1611, 1631); (1648, 1648);
  (1750, 1757); (1759, 1768); (1770, 1773); (1807, 1807); (1809, 1809); (1840, 1866);
  (1958, 1968); (2027, 2037); (2042, 2042); (2045, 2045); (2070, 2093); (2137, 2139);
  (2184, 2184); (2192, 2193); (2200, 2207); (2249, 2306); (2362, 2362); (2364, 2364);
  (2369, 2376); (2381, 2381); (2385, 2391); (2402, 2403); (2417, 2417); (2433, 2433);
  (2492, 2492); (2497, 2500); (2509, 2509); (2530, 2531); (2558, 2558); (2561, 2562);
  (2620, 2620); (2625, 2626); (2631, 2632); (2635, 2637); (2641, 2641); (2672, 2673);
  (2677, 2677); (2689, 2690); (2748, 2748); (2753, 2757); (2759, 2760); (2765, 2765);
  (2786, 2787); (2810, 2815); (2817, 2817); (2876, 2876); (2879, 2879); (2881, 2884);
  (2893, 2893); (2901, 2902); (2914, 2915); (2946, 2946); (3008, 3008); (3021, 3021);
  (3072, 3072); (3076, 3076); (3132, 3132); (3134, 3136); (3142, 3144); (3146, 3149);
  (3157, 3158); (3170, 3171); (3201, 3201); (3260, 3260); (3263, 3263); (3270, 3270);
  (3276, 3277); (3298, 3299); (3328, 3329); (3387, 3388); (3393, 3396); (3405, 3405);
  (3426, 3427); (3457, 3457); (3530, 3530); (3538, 3540); (3542, 3542); (3633, 3633);
  (3636, 3642); (3654, 3662); (3761, 3761); (3764, 3772); (3782, 3782); (3784, 3789);
  (3864, 3865); (3893, 3893); (3895, 3895); (3897, 3897); (3953, 3966); (3968, 3972);
  (3974, 3975); (3981, 3991); (3993, 4028); (4038, 4038); (4141, 4144); (4146, 4151);
  (4153, 4154); (4157, 4158); (4184, 4185); (4190, 4192); (4209, 4212); (4226, 4226);
  (4229, 4230); (4237, 4237); (4253, 4253); (4348, 4348); (4957, 4959); (5906, 5908);
  (5938, 5939); (5970, 5971); (6002, 6003); (6068, 6069); (6071, 6077); (6086, 6086);
  (6089, 6099); (6103, 6103); (6109, 6109); (6155, 6159); (6211, 6211); (6277, 6278);
  (6313, 6313); (6432, 6434); (6439, 6440); (6450, 6450); (6457, 6459); (6679, 6680);
  (6683, 6683); (6742, 6742); (6744, 6750); (6752, 6752); (6754, 6754); (6757, 6764);
  (6771, 6780); (6783, 6783); (6823, 6823); (6832, 6862); (6912, 6915); (6964, 6964);
  (6966, 6970); (6972, 6972); (6978, 6978); (7019, 7027); (7040, 7041); (7074, 7077);
  (7080, 7081); (7083, 7085); (7142, 7142); (7144, 7145); (7149, 7149); (7151, 7153);
  (7212, 7219); (7222, 7223); (7288, 7293); (7376, 7378); (7380, 7392); (7394, 7400);
  (7405, 7405); (7412, 7412); (7416, 7417); (7468, 7530); (7544, 7544); (7579, 7679);
  (8125, 8125); (8127, 8129); (8141, 8143); (8157, 8159); (8173, 8175); (8189, 8190);
  (8203, 8207); (8216, 8217); (8228, 8228); (8231, 8231); (8234, 8238); (8288, 8292);
  (8294, 8303); (8305, 8305); (8319, 8319); (8336, 8348); (8400, 8432); (11388, 11389);
  (11503, 11505); (11631, 11631); (11647, 11647); (11744, 11775); (11823, 11823); (12293, 12293);
  (12330, 12333); (12337, 12341); (12347, 12347); (12441, 12446); (12540, 12542); (40981, 40981);
  (42232, 42237); (42508, 42508); (42607, 42610); (42612, 42621); (42623, 42623); (42652, 42655);
  (42736, 42737); (42752, 42785); (42864, 42864); (42888, 42890); (42994, 42996); (43000, 43001);
  (43010, 43010); (43014, 43014); (43019, 43019); (43045, 43046); (43052, 43052); (43204, 43205);
  (43232, 43249); (43263, 43263); (43302, 43309); (43335, 43345); (43392, 43394); (43443, 43443);
  (43446, 43449); (43452, 43453); (43471, 43471); (43493, 43494); (43561, 43566); (43569, 43570);
  (43573, 43574); (43587, 43587); (43596, 43596); (43632, 43632); (43644, 43644); (43696, 43696);
  (43698, 43700); (43703, 43704); (43710, 43711); (43713, 43713); (43741, 43741); (43756, 43757);
  (43763, 43764); (43766, 43766); (43867, 43871); (43881, 43883); (44005, 44005); (44008, 44008);
  (44013, 44013); (64286, 64286); (64434, 64450); (65024, 65039); (65043, 65043); (65056, 65071);
  (65106, 65106); (65109, 65109); (65279, 65279); (65287, 65287); (65294, 65294); (65306, 65306);
  (65342, 65342); (65344, 65344); (65392, 65392); (65438, 65439); (65507, 65507); (65529, 65531);
  (66045, 66045); (66272, 66272); (66422, 66426); (67456, 67461); (67463, 67504); (67506, 67514);
  (68097, 68099); (68101, 68102); (68108, 68111); (68152, 68154); (68159, 68159); (68325, 68326);
  (68900, 68903); (69291, 69292); (69446, 69456); (69506, 69509); (69633, 69633); (69688, 69702);
  (69744, 69744); (69747, 69748); (69759, 69761); (69811, 69814); (69817, 69818); (69821, 69821);
  (69826, 69826); (69837, 69837); (69888, 69890); (69927, 69931); (69933, 69940); (70003, 70003);
  (70016, 70017); (70070, 70078); (70089, 70092); (70095, 70095); (70191, 70193); (70196, 70196);
  (70198, 70199); (70206, 70206); (70367, 70367); (70371, 70378); (70400, 70401); (70459, 70460);
  (70464, 70464); (70502, 70508); (70512, 70516); (70712, 70719); (70722, 70724); (70726, 70726);
  (70750, 70750); (70835, 70840); (70842, 70842); (70847, 70848); (70850, 70851); (71090, 71093);
  (71100, 71101); (71103, 71104); (71132, 71133); (71219, 71226); (71229, 71229); (71231, 71232);
  (71339, 71339); (71341, 71341); (71344, 71349); (71351, 71351); (71453, 71455); (71458, 71461);
  (71463, 71467); (71727, 71735); (71737, 71738); (71995, 71996); (71998, 71998); (72003, 72003);
  (72148, 72151); (72154, 72155); (72160, 72160); (72193, 72202); (72243, 72248); (72251, 72254);
  (72263, 72263); (72273, 72278); (72281, 72283); (72330, 72342); (72344, 72345); (72752, 72758);
  (72760, 72765); (72767, 72767); (72850, 72871); (72874, 72880); (72882, 72883); (72885, 72886);
  (73009, 73014); (73018, 73018); (73020, 73021); (73023, 73029); (73031, 73031); (73104, 73105);
  (73109, 73109); (73111, 73111); (73459, 73460); (78896, 78904); (92912, 92916); (92976, 92982);
  (92992, 92995); (94031, 94031); (94095, 94111); (94176, 94177); (94179, 94180); (110576, 110579);
  (110581, 110587); (110589, 110590); (113821, 113822); (113824, 113827); (118528, 118573); (118576, 118598);
  (119143, 119145); (119155, 119170); (119173, 119179); (119210, 119213); (119362, 119364); (121344, 121398);
  (121403, 121452); (121461, 121461); (121476, 121476); (121499, 121503); (121505, 121519); (122880, 122886);
  (122888, 122904); (122907, 122913); (122915, 122916); (122918, 122922); (123184, 123197); (123566, 123566);
  (123628, 123631); (125136, 125142); (125252, 125259); (127995, 127999); (917505, 917505); (917536, 917631);
  (917760, 917999)
].

Definition in_ranges (c : Z) (rs : list (Z * Z)) : bool :=
  existsb (fun r => (r.1 <=? c) && (c <=? r.2))%bool rs.

(** The lowercase of one code point; U+0130 is the one code point whose
    lowercase is two code points. *)
Definition lower_cp (c : Z) : list Z :=
  if c =? 304 then [105; 775] else
  match List.find (fun r : Z * Z * Z * Z =>
         let '(lo, hi, st, _) := r in
         ((lo <=? c) && (c <=? hi) && (Z.modulo (c - lo) st =? 0))%bool) lower_runs with
  | Some (_, _, _, d) => [c + d]
  | None => [c]
  end.

Inductive uchar := UChar (cp : Z) | RawByte (b : Ascii.ascii).

Definition byte_of (a : Ascii.ascii) : Z := Z.of_nat (Ascii.nat_of_ascii a).
Definition is_cont (a : Ascii.ascii) : bool :=
  ((128 <=? byte_of a) && (byte_of a <? 192))%bool.
Definition cont_bits (a : Ascii.ascii) : Z := byte_of a - 128.

Fixpoint utf8_decode (s : string) : list uchar :=
  match s with
  | EmptyString => []
  | String a s1 =>
    let b := byte_of a in
    if b <? 128 then UChar b :: utf8_decode s1
    else if ((192 <=? b) && (b <? 224))%bool then
      match s1 with
      | String a2 s2 =>
        if is_cont a2 then UChar ((b - 192) * 64 + cont_bits a2) :: utf8_decode s2
        else RawByte a :: utf8_decode s1
      | EmptyString => [RawByte a]
      end
    else if ((224 <=? b) && (b <? 240))%bool then
      match s1 with
      | String a2 (String a3 s3) =>
        if (is_cont a2 && is_cont a3)%bool
        then UChar (((b - 224) * 64 + cont_bits a2) * 64 + cont_bits a3) :: utf8_decode s3
        else RawByte a :: utf8_decode s1
      | _ => RawByte a :: utf8_decode s1
      end
    else if ((240 <=? b) && (b <? 248))%bool then
      match s1 with
      | String a2 (String a3 (String a4 s4)) =>
        if (is_cont a2 && is_cont a3 && is_cont a4)%bool
        then UChar ((((b - 240) * 64 + cont_bits a2) * 64 + cont_bits a3) * 64
                    + cont_bits a4) :: utf8_decode s4
        else RawByte a :: utf8_decode s1
      | _ => RawByte a :: utf8_decode s1
      end
    else RawByte a :: utf8_decode s1
  end.

Definition byte_at (z : Z) : Ascii.ascii := Ascii.ascii_of_nat (Z.to_nat z).

Definition utf8_encode_cp (c : Z) : string :=
  if c <? 128 then String (byte_at c) EmptyString
  else if c <? 2048 then
    String (byte_at (192 + c / 64)) (String (byte_at (128 + c mod 64)) EmptyString)
  else if c <? 65536 then
    String (byte_at (224 + c / 4096))
      (String (byte_at (128 + (c / 64) mod 64)) (String (byte_at (128 + c mod 64)) EmptyString))
  else
    String (byte_at (240 + c / 262144))
      (String (byte_at (128 + (c / 4096) mod 64))
        (String (byte_at (128 + (c / 64) mod 64)) (String (byte_at (128 + c mod 64)) EmptyString))).

Definition is_cased (u : uchar) : bool :=
  match u with UChar c => in_ranges c cased_ranges | RawByte _ => false end.
Definition is_case_ignorable (u : uchar) : bool :=
  match u with UChar c => in_ranges c case_ignorable_ranges | RawByte _ => false end.

(** Whether the first character of [l] that is not case-ignorable is
    cased. *)
Fixpoint next_is_cased (l : list uchar) : bool :=
  match l with
  | [] => false
  | u :: r => if is_case_ignorable u then next_is_cased r else is_cased u
  end.

(** [prev_cased]: the last character before [l] that is not
    case-ignorable is cased. *)
Fixpoint lower_chars (prev_cased : bool) (l : list uchar) : string :=
  match l with
  | [] => EmptyString
  | u :: r =>
    let out :=
      match u with
      | RawByte a => String a EmptyString
      | UChar c =>
        if ((c =? 931) && prev_cased && negb (next_is_cased r))%bool
        then utf8_encode_cp 962
        else fold_right (fun c' acc => utf8_encode_cp c' +:+ acc) EmptyString (lower_cp c)
      end in
    out +:+ lower_chars (if is_case_ignorable u then prev_cased else is_cased u) r
  end.

Definition py_lower (s : string) : string := lower_chars false (utf8_decode s).

(* ------------------------------------------------------------------ *)
(** ** Data model ([app/models.py]) *)

Inductive PersonaType :=
  | SIDE_WORKER | CHILD_RAISING_MOM | BUSINESS_OWNER | SELF_ACHIEVER | UNKNOWN.

(** The enum's string values ([use_enum_values = True]). *)
Definition persona_value (p : PersonaType) : string :=
  match p with
  | SIDE_WORKER => "副業ワーカー"
  | CHILD_RAISING_MOM => "子育てママ"
  | BUSINESS_OWNER => "ビジネスオーナー"
  | SELF_ACHIEVER => "自己実現チャレンジャー"
  | UNKNOWN => "未特定"
  end.

Definition persona_eqb (p q : PersonaType) : bool :=
  match p, q with
  | SIDE_WORKER, SIDE_WORKER | CHILD_RAISING_MOM, CHILD_RAISING_MOM
  | BUSINESS_OWNER, BUSINESS_OWNER | SELF_ACHIEVER, SELF_ACHIEVER
  | UNKNOWN, UNKNOWN => true
  | _, _ => false
  end.

Inductive ConversationStatus :=
  | INITIAL | HEARING | SEMINAR_INVITED | SEMINAR_APPLIED | SEMINAR_ATTENDED
  | CONSULTATION_INVITED | CONSULTATION_SCHEDULED | CONSULTATION_DONE.

Definition status_value (s : ConversationStatus) : string :=
  match s with
  | INITIAL => "友だち追加直後"
  | HEARING => "ヒアリング中"
  | SEMINAR_INVITED => "勉強会案内済み"
  | SEMINAR_APPLIED => "勉強会申込済み"
  | SEMINAR_ATTENDED => "勉強会参加済み"
  | CONSULTATION_INVITED => "個別相談案内済み"
  | CONSULTATION_SCHEDULED => "個別相談予約済み"
  | CONSULTATION_DONE => "個別相談完了"
  end.

(** The name of an enum member, as [str(member)] and an f-string render a
    member of a [str]-mixin enum on Python 3.11 and later. *)
Definition persona_name (p : PersonaType) : string :=
  match p with
  | SIDE_WORKER => "PersonaType.SIDE_WORKER"
  | CHILD_RAISING_MOM => "PersonaType.CHILD_RAISING_MOM"
  | BUSINESS_OWNER => "PersonaType.BUSINESS_OWNER"
  | SELF_ACHIEVER => "PersonaType.SELF_ACHIEVER"
  | UNKNOWN => "PersonaType.UNKNOWN"
  end.

Definition status_name (s : ConversationStatus) : string :=
  match s with
  | INITIAL => "ConversationStatus.INITIAL"
  | HEARING => "ConversationStatus.HEARING"
  | SEMINAR_INVITED => "ConversationStatus.SEMINAR_INVITED"
  | SEMINAR_APPLIED => "ConversationStatus.SEMINAR_APPLIED"
  | SEMINAR_ATTENDED => "ConversationStatus.SEMINAR_ATTENDED"
  | CONSULTATION_INVITED => "ConversationStatus.CONSULTATION_INVITED"
  | CONSULTATION_SCHEDULED => "ConversationStatus.CONSULTATION_SCHEDULED"
  | CONSULTATION_DONE => "ConversationStatus.CONSULTATION_DONE"
  end.

(** What a [persona] or [status] field of a [Customer] holds at run time.
    With [use_enum_values = True], a value that pydantic validates (passed to
    the constructor, as [get_customer] does) is stored as the enum's string
    value; a default (pydantic does not validate defaults) and an attribute
    assignment (no [validate_assignment]) keep the enum member itself.  Both
    compare equal to the value string, but an f-string renders the member
    by its name. *)
Inductive FieldRepr := EnumMember | EnumValue.

Definition render_persona (r : FieldRepr) (p : PersonaType) : string :=
  match r with EnumValue => persona_value p | EnumMember => persona_name p end.

Definition render_status (r : FieldRepr) (s : ConversationStatus) : string :=
  match r with EnumValue => status_value s | EnumMember => status_name s end.

(** [Customer]; the optional lists [interest_genre] and [challenges] are
    lists, [None] being read as [[]] everywhere the source uses them
    ([x or []], [if x:]).  [persona_repr] and [status_repr] record whether
    the field holds the member or the value.  The timestamps and [source]
    are not modelled. *)
Record Customer := mkCustomer {
  user_id : string;
  display_name : option string;
  occupation : option string;
  interest_genre : list string;
  challenges : list string;
  goals : option string;
  persona : PersonaType;
  status : ConversationStatus;
  persona_repr : FieldRepr;
  status_repr : FieldRepr;
}.

(** [Customer(user_id=uid)]: the defaults, kept as enum members. *)
Definition new_customer (uid : string) : Customer :=
  mkCustomer uid None None [] [] None UNKNOWN INITIAL EnumMember EnumMember.

Definition set_occupation (c : Customer) (o : option string) : Customer :=
  mkCustomer (user_id c) (display_name c) o (interest_genre c) (challenges c)
    (goals c) (persona c) (status c) (persona_repr c) (status_repr c).
Definition set_interest_genre (c : Customer) (g : list string) : Customer :=
  mkCustomer (user_id c) (display_name c) (occupation c) g (challenges c)
    (goals c) (persona c) (status c) (persona_repr c) (status_repr c).
Definition set_challenges (c : Customer) (ch : list string) : Customer :=
  mkCustomer (user_id c) (display_name c) (occupation c) (interest_genre c) ch
    (goals c) (persona c) (status c) (persona_repr c) (status_repr c).
(** [customer.persona = ...]: the assigned member is stored unvalidated. *)
Definition set_persona (c : Customer) (p : PersonaType) : Customer :=
  mkCustomer (user_id c) (display_name c) (occupation c) (interest_genre c)
    (challenges c) (goals c) p (status c) EnumMember (status_repr c).

(* ------------------------------------------------------------------ *)
(** ** Lexicon tables ([PersonaAnalyzer]) *)

Record PersonaKeywords := mkPK {
  pk_occupation : list string;
  pk_keywords : list string;
  pk_challenges : list string;
}.

(** [PERSONA_KEYWORDS], in the dict's insertion order. *)
Definition PERSONA_KEYWORDS : list (PersonaType * PersonaKeywords) := [
  (SIDE_WORKER, mkPK
     ["会社員"; "サラリーマン"; "OL"; "正社員"; "勤め"]
     ["副業"; "副収入"; "仕事終わり"; "通勤"; "平日"; "休日"; "本業"]
     ["時間が無い"; "仕事と両立"; "隙間時間"]);
  (CHILD_RAISING_MOM, mkPK
     ["主婦"; "主夫"; "ママ"; "パート"; "専業"]
     ["育児"; "子ども"; "子供"; "赤ちゃん"; "保育園"; "幼稚園"; "在宅"; "家事"]
     ["育児と両立"; "在宅で"; "子どもがいて"]);
  (BUSINESS_OWNER, mkPK
     ["経営"; "オーナー"; "社長"; "役員"; "自営"; "個人事業"; "店舗"]
     ["集客"; "売上"; "ビジネス"; "事業"; "店"; "サロン"; "会社"]
     ["集客を増やしたい"; "広告費"; "新規顧客"]);
  (SELF_ACHIEVER, mkPK
     []
     ["自由"; "可能性"; "挑戦"; "夢"; "好きなこと"; "自分らしく"; "新しい"]
     ["自分を変えたい"; "何か始めたい"; "可能性を広げたい"])
].

(** [GENRE_KEYWORDS], in insertion order. *)
Definition GENRE_KEYWORDS : list (string * list string) := [
  ("料理", ["料理"; "レシピ"; "お弁当"; "食事"; "クッキング"; "ご飯"]);
  ("ダイエット", ["ダイエット"; "痩せ"; "体重"; "ボディメイク"; "筋トレ"]);
  ("美容", ["美容"; "コスメ"; "メイク"; "スキンケア"; "美肌"]);
  ("育児", ["育児"; "子育て"; "子ども"; "ママ"; "赤ちゃん"]);
  ("ビジネス", ["ビジネス"; "仕事"; "キャリア"; "自己啓発"; "投資"]);
  ("ハンドメイド", ["ハンドメイド"; "手作り"; "クラフト"; "アクセサリー"; "DIY"]);
  ("ライフスタイル", ["日常"; "暮らし"; "インテリア"; "旅行"; "カフェ"])
].

Definition CHALLENGE_KEYWORDS : list string := [
  "時間が無い"; "時間がない"; "忙しい";
  "自己流の限界"; "伸び悩み"; "やり方がわからない";
  "稼ぎたい"; "収入"; "収益化";
  "初心者"; "未経験"; "始めたい";
  "不安"; "自信がない"; "できるか";
  "在宅"; "家で"; "リモート";
  "副業"; "本業以外";
  "両立"; "育児"; "仕事"
].

(** The [patterns] of [_extract_occupation]: each regex is a literal
    alternation [a|b|...], kept as its list of alternatives. *)
Definition OCCUPATION_PATTERNS : list (list string * string) := [
  (["会社員"], "会社員");
  (["サラリーマン"], "会社員");
  (["OL"], "会社員");
  (["主婦"; "専業主婦"], "主婦");
  (["主夫"], "主夫");
  (["パート"; "アルバイト"], "パート・アルバイト");
  (["経営者"; "社長"; "オーナー"], "経営者");
  (["役員"], "経営者・役員");
  (["自営業"; "個人事業"], "自営業");
  (["フリーランス"], "フリーランス");
  (["学生"], "学生")
].

(* ------------------------------------------------------------------ *)
(** ** Extraction ([_extract_occupation], [_extract_genres],
       [_extract_challenges]) *)

(** [re.search(pattern, message)] for a literal alternation. *)
Definition re_search (alts : list string) (message : string) : bool :=
  existsb (fun a => py_in a message) alts.

Fixpoint first_occupation (pats : list (list string * string)) (message : string)
    : option string :=
  match pats with
  | [] => None
  | (pat, occ) :: rest =>
      if re_search pat message then Some occ else first_occupation rest message
  end.

Definition _extract_occupation (message : string) : option string :=
  first_occupation OCCUPATION_PATTERNS message.

(** The inner [for keyword in keywords: ... break] loop of
    [_extract_genres], followed by [if genre not in found_genres]. *)
Fixpoint extract_genres_loop (tbl : list (string * list string))
    (message message_lower : string) (found : list string) : list string :=
  match tbl with
  | [] => found
  | (genre, kws) :: rest =>
      let found' :=
        if existsb (fun k => py_in k message || py_in k message_lower) kws
        then (if py_list_in genre found then found else found ++ [genre])
        else found in
      extract_genres_loop rest message message_lower found'
  end.

Definition _extract_genres (message : string) : list string :=
  extract_genres_loop GENRE_KEYWORDS message (py_lower message) [].

Definition _extract_challenges (message : string) : list string :=
  List.filter (fun ch => py_in ch message) CHALLENGE_KEYWORDS.

(* ------------------------------------------------------------------ *)
(** ** Persona estimation ([_estimate_persona]) *)

(** The [scores] dict of [_estimate_persona] as a total function; its keys,
    in insertion order, are [SCORE_KEYS]. *)
Definition SCORE_KEYS : list PersonaType :=
  [SIDE_WORKER; CHILD_RAISING_MOM; BUSINESS_OWNER; SELF_ACHIEVER].

(** Position of a persona in the table order of [SCORE_KEYS]. *)
Definition persona_rank (p : PersonaType) : nat :=
  match p with
  | SIDE_WORKER => 0%nat | CHILD_RAISING_MOM => 1%nat
  | BUSINESS_OWNER => 2%nat | SELF_ACHIEVER => 3%nat | UNKNOWN => 4%nat
  end.

Definition scores0 : PersonaType -> Z := fun _ => 0.

(** [scores[p] += d] *)
Definition score_add (sc : PersonaType -> Z) (p : PersonaType) (d : Z)
    : PersonaType -> Z :=
  fun q => if persona_eqb p q then sc q + d else sc q.

(** Occupation: [for occ_keyword in ...: if ...: scores[persona] += 5; break]. *)
Definition occupation_step (occ : string) (sc : PersonaType -> Z)
    (e : PersonaType * PersonaKeywords) : PersonaType -> Z :=
  if existsb (fun k => py_in k occ) (pk_occupation e.2)
  then score_add sc e.1 5 else sc.

(** The inner [for keyword in ...: if keyword in s: scores[persona] += w]. *)
Definition term_step (s : string) (w : Z) (p : PersonaType)
    (sc : PersonaType -> Z) (k : string) : PersonaType -> Z :=
  if py_in k s then score_add sc p w else sc.

Definition genre_step (genre_str : string) (sc : PersonaType -> Z)
    (e : PersonaType * PersonaKeywords) : PersonaType -> Z :=
  fold_left (term_step genre_str 2 e.1) (pk_keywords e.2) sc.

Definition challenge_step (challenge_str : string) (sc : PersonaType -> Z)
    (e : PersonaType * PersonaKeywords) : PersonaType -> Z :=
  fold_left (term_step challenge_str 3 e.1) (pk_challenges e.2) sc.

Definition persona_scores (c : Customer) : PersonaType -> Z :=
  let sc1 := if str_truthy (occupation c)
             then fold_left (occupation_step (default "" (occupation c)))
                    PERSONA_KEYWORDS scores0
             else scores0 in
  let sc2 := match interest_genre c with
             | [] => sc1
             | gs => fold_left (genre_step (py_join " " gs)) PERSONA_KEYWORDS sc1
             end in
  match challenges c with
  | [] => sc2
  | chs => fold_left (challenge_step (py_join " " chs)) PERSONA_KEYWORDS sc2
  end.

(** [max(scores.values())] *)
Definition max_score (sc : PersonaType -> Z) : Z :=
  match map sc SCORE_KEYS with
  | [] => 0
  | v :: vs => fold_left Z.max vs v
  end.

(** [for persona, score in scores.items(): if score == max_score: return persona],
    falling through to [UNKNOWN]. *)
Fixpoint first_with_score (sc : PersonaType -> Z) (m : Z) (ks : list PersonaType)
    : PersonaType :=
  match ks with
  | [] => UNKNOWN
  | k :: ks' => if Z.eqb (sc k) m then k else first_with_score sc m ks'
  end.

Definition _estimate_persona (c : Customer) : PersonaType :=
  let sc := persona_scores c in
  let m := max_score sc in
  if Z.ltb 0 m then first_with_score sc m SCORE_KEYS else UNKNOWN.

(* ------------------------------------------------------------------ *)
(** ** [analyze_message] *)

(** [list(set(a) | set(b))]: Python's iteration order of a set of strings
    depends on string hashing; the model takes stdpp's [elements] order. *)
Definition py_set_union (a b : list string) : list string :=
  elements (list_to_set a ∪ list_to_set b : gset string).

(** Lines 71-86 of [analyze_message]: occupation, genres, challenges. *)
Definition update_profile (message : string) (c : Customer) : Customer :=
  let occ := _extract_occupation message in
  let c1 := if str_truthy occ && negb (str_truthy (occupation c))
            then set_occupation c occ else c in
  let genres := _extract_genres message in
  let c2 := match genres with
            | [] => c1
            | _ => set_interest_genre c1 (py_set_union (interest_genre c1) genres)
            end in
  let chs := _extract_challenges message in
  match chs with
  | [] => c2
  | _ => set_challenges c2 (py_set_union (challenges c2) chs)
  end.

(** [analyze_message]: the attribute updates, then lines 89-90. *)
Definition analyze_message (message : string) (c : Customer) : Customer :=
  let c3 := update_profile message c in
  if persona_eqb (persona c3) UNKNOWN
     || String.eqb (persona_value (persona c3)) "未特定"
  then set_persona c3 (_estimate_persona c3)
  else c3.

(** [extract] applied to a sequence of utterances, one call per turn. *)
Definition analyze_messages (ms : list string) (c : Customer) : Customer :=
  fold_left (fun c m => analyze_message m c) ms c.

(** The persona score as the spec words it: +5 if the occupation contains
    any occupation term of the persona, +2 per persona keyword found in the
    joined genres, +3 per persona challenge phrase found in the joined
    challenges. *)
Definition persona_entry (p : PersonaType) : PersonaKeywords :=
  match find (fun e => persona_eqb e.1 p) PERSONA_KEYWORDS with
  | Some e => e.2
  | None => mkPK [] [] []
  end.

Definition spec_persona_score (c : Customer) (p : PersonaType) : Z :=
  let e := persona_entry p in
  (if match occupation c with
      | Some o => existsb (fun t => py_in t o) (pk_occupation e)
      | None => false
      end then 5 else 0)
  + 2 * Z.of_nat (length (List.filter (fun t => py_in t (py_join " " (interest_genre c)))
                           (pk_keywords e)))
  + 3 * Z.of_nat (length (List.filter (fun t => py_in t (py_join " " (challenges c)))
                           (pk_challenges e))).

Definition spec_max_score (c : Customer) : Z :=
  max_score (spec_persona_score c).

(* ------------------------------------------------------------------ *)
(** ** Knowledge base ([app/knowledge_base.py]) *)

(** [SuccessCase]; fields carry a [case_] prefix where [FAQ] has a field
    of the same name. *)
Record SuccessCase := mkSuccessCase {
  case_id : string;
  title : string;
  customer_profile : string;
  case_genre : string;
  initial_situation : string;
  achievement : string;
  period : string;
  success_points : string;
  case_related_personas : list string;
  related_challenges : list string;
  case_keywords : list string;
}.

Record FAQ := mkFAQ {
  faq_id : string;
  category : string;
  question : string;
  answer : string;
  faq_related_personas : list string;
  faq_keywords : list string;
}.

(** [if x and ...:] for an [Optional[str]] argument [x]. *)
Definition opt_str_test (o : option string) (f : string -> bool) : bool :=
  match o with
  | Some x => str_truthy o && f x
  | None => false
  end.

(** The score computed in the loop body of [search_success_cases]. *)
Definition case_score (persona : option string) (challenges : list string)
    (genre : option string) (keywords : list string) (c : SuccessCase) : Z :=
  let score := 0 in
  let score := if opt_str_test persona (fun p => py_list_in p (case_related_personas c))
               then score + 3 else score in
  let score := fold_left (fun score ch =>
                 if existsb (fun r => py_in ch r) (related_challenges c)
                 then score + 2 else score) challenges score in
  let score := if opt_str_test genre (fun g => py_in (py_lower g) (py_lower (case_genre c)))
               then score + 2 else score in
  fold_left (fun score k =>
    if py_list_in k (case_keywords c) then score + 1 else score) keywords score.

(** The loop of [search_success_cases] building [results]. *)
Fixpoint collect_cases (persona : option string) (challenges : list string)
    (genre : option string) (keywords exclude_ids : list string)
    (cases : list SuccessCase) : list (Z * SuccessCase) :=
  match cases with
  | [] => []
  | c :: cs =>
      if py_list_in (case_id c) exclude_ids
      then collect_cases persona challenges genre keywords exclude_ids cs
      else
        let score := case_score persona challenges genre keywords c in
        if Z.ltb 0 score
        then (score, c) :: collect_cases persona challenges genre keywords exclude_ids cs
        else collect_cases persona challenges genre keywords exclude_ids cs
  end.

(** [results.sort(key=lambda x: x[0], reverse=True)]: Python's sort is
    stable, also with [reverse=True], so its result is the unique list sorted
    by descending key in which equal keys keep their input order.  It is
    computed here by insertion sort: [insert_desc x l] puts [x] in front of
    the first element whose key is not greater than its own. *)
Fixpoint insert_desc {A} (x : Z * A) (l : list (Z * A)) : list (Z * A) :=
  match l with
  | [] => [x]
  | y :: l' => if Z.ltb x.1 y.1 then y :: insert_desc x l' else x :: l
  end.

Fixpoint sort_desc {A} (l : list (Z * A)) : list (Z * A) :=
  match l with
  | [] => []
  | x :: l' => insert_desc x (sort_desc l')
  end.

(** [l[:limit]] for a Python [int] [limit]; a negative [limit] counts from
    the end. *)
Definition py_slice_to {A} (l : list A) (limit : Z) : list A :=
  if Z.leb 0 limit then firstn (Z.to_nat limit) l
  else firstn (length l - Z.to_nat (- limit)) l.

Definition search_success_cases (persona : option string) (challenges : list string)
    (genre : option string) (keywords exclude_ids : list string) (limit : Z)
    (success_cases : list SuccessCase) : list SuccessCase :=
  let results := collect_cases persona challenges genre keywords exclude_ids success_cases in
  map snd (py_slice_to (sort_desc results) limit).

(** The score computed in the loop body of [search_faqs]. *)
Definition faq_score (keywords : list string) (category_arg : option string)
    (faq : FAQ) : Z :=
  let score := 0 in
  let score := if opt_str_test category_arg (fun c => py_in c (category faq))
               then score + 2 else score in
  fold_left (fun score k =>
    let score := if py_in k (question faq) then score + 3 else score in
    let score := if py_list_in k (faq_keywords faq) then score + 2 else score in
    if py_in k (answer faq) then score + 1 else score) keywords score.

Fixpoint collect_faqs (keywords : list string) (category_arg : option string)
    (faqs : list FAQ) : list (Z * FAQ) :=
  match faqs with
  | [] => []
  | f :: fs =>
      let score := faq_score keywords category_arg f in
      if Z.ltb 0 score then (score, f) :: collect_faqs keywords category_arg fs
      else collect_faqs keywords category_arg fs
  end.

Definition search_faqs (keywords : list string) (category_arg : option string)
    (limit : Z) (faqs : list FAQ) : list FAQ :=
  map snd (py_slice_to (sort_desc (collect_faqs keywords category_arg faqs)) limit).

(** [(score(r), r)] pairs, as appended to [results]. *)
Definition keyed {A} (score : A -> Z) (l : list A) : list (Z * A) :=
  map (fun a => (score a, a)) l.

(** Stable descending order of [out] with respect to [input] and [score]:
    [out] is sorted by non-increasing score and, for every score value, the
    records of that score occur in [out] in the order they have in [input]. *)
Definition stable_desc_sorted {A} (score : A -> Z) (input out : list A) : Prop :=
  StronglySorted (fun a b => score b <= score a) out /\
  forall s, List.filter (fun a => Z.eqb (score a) s) out
            = List.filter (fun a => Z.eqb (score a) s) input.

(** The FAQ score as the spec words it: +2 on a category substring match,
    and per keyword +3, +2, +1 for question, keyword list and answer. *)
Definition spec_faq_score (keywords : list string) (category_arg : option string)
    (faq : FAQ) : Z :=
  (match category_arg with
   | Some c => if py_in c (category faq) then 2 else 0
   | None => 0
   end)
  + fold_right (fun k acc =>
      (if py_in k (question faq) then 3 else 0)
      + (if py_list_in k (faq_keywords faq) then 2 else 0)
      + (if py_in k (answer faq) then 1 else 0) + acc) 0 keywords.

(* ------------------------------------------------------------------ *)
(** ** Context assembly ([app/ai_engine.py]) *)

Record Message := mkMessage {
  msg_user_id : string;
  role : string;
  content : string;
}.

(** [ConversationContext]; [current_topic] is not read by the code below. *)
Record ConversationContext := mkContext {
  customer : Customer;
  messages : list Message;
  mentioned_cases : list string;
}.

(** The [{"role": ..., "content": ...}] dicts sent to the API. *)
Record ChatMessage := mkChat {
  chat_role : string;
  chat_content : string;
}.

Definition NL : string := String (Ascii.ascii_of_nat 10) EmptyString.

(** The [customer_info] list of [_build_context_prompt]. *)
Definition customer_info (c : Customer) : list string :=
  let info : list string := [] in
  let info := if str_truthy (display_name c)
              then info ++ ["お名前: " +:+ default "" (display_name c) +:+ "さん"]
              else info in
  let info := if str_truthy (occupation c)
              then info ++ ["職業: " +:+ default "" (occupation c)] else info in
  let info := match interest_genre c with
              | [] => info
              | gs => info ++ ["興味ジャンル: " +:+ py_join ", " gs]
              end in
  let info := match challenges c with
              | [] => info
              | chs => info ++ ["課題: " +:+ py_join ", " chs]
              end in
  let info := if str_truthy (goals c)
              then info ++ ["目標: " +:+ default "" (goals c)] else info in
  (* [persona_value] is the member itself when the field holds one (a
     [str]-mixin member is an instance of [str]): it compares by its value
     and renders by its name *)
  let info := if negb (String.eqb (persona_value (persona c)) "未特定")
              then info ++ ["推定ペルソナ: " +:+ render_persona (persona_repr c) (persona c)]
              else info in
  info ++ ["ステータス: " +:+ render_status (status_repr c) (status c)].

Definition _build_context_prompt (context : ConversationContext) : string :=
  let info := customer_info (customer context) in
  NL +:+ "## 現在の顧客情報" +:+ NL
  +:+ (match info with [] => "（まだヒアリング前です）" | _ => py_join NL info end) +:+ NL
  +:+ NL
  +:+ "## 対話の指針" +:+ NL
  +:+ "- この顧客に合わせた対話を心がけてください" +:+ NL
  +:+ "- まだ情報が少ない場合は、自然な形でヒアリングを進めてください" +:+ NL
  +:+ "- 既に言及した成功事例: "
  +:+ (match mentioned_cases context with
       | [] => "なし"
       | mc => py_join ", " mc
       end) +:+ NL.

(** [l[-n:]] for [n >= 0]. *)
Definition py_last (n : nat) {A} (l : list A) : list A :=
  drop (length l - n) l.

Definition _build_messages (system_prompt : string) (context : ConversationContext)
    (user_message knowledge : string) : list ChatMessage :=
  let full_system_prompt := system_prompt +:+ NL +:+ NL +:+ _build_context_prompt context in
  let full_system_prompt :=
    match knowledge with
    | EmptyString => full_system_prompt
    | _ => full_system_prompt +:+ NL +:+ NL +:+ knowledge
    end in
  [mkChat "system" full_system_prompt]
  ++ map (fun msg => mkChat (role msg) (content msg)) (py_last 10 (messages context))
  ++ [mkChat "user" user_message].

(** [_extract_keywords]: the [keyword_patterns] found in the message, in
    list order. *)
Definition KEYWORD_PATTERNS : list string := [
  "初心者"; "料金"; "費用"; "時間"; "仕事"; "育児"; "副業";
  "稼"; "収益"; "フォロワー"; "ジャンル"; "サポート"; "講師";
  "勉強会"; "個別相談"; "料理"; "ダイエット"; "美容";
  "不安"; "大丈夫"; "できる"; "分割"; "支払い"
].

Definition _extract_keywords (message : string) : list string :=
  fold_left (fun keywords pattern =>
    if py_in pattern message then keywords ++ [pattern] else keywords)
    KEYWORD_PATTERNS [].

(** The guard of the FAQ search in [_get_relevant_knowledge]. *)
Definition is_question_like (user_message : string) : bool :=
  py_in "?" user_message || py_in "？" user_message
  || existsb (fun word => py_in word user_message)
       ["ですか"; "ますか"; "どう"; "いくら"; "何"].

(** The f-string block appended per success case. *)
Definition render_case (c : SuccessCase) : string :=
  NL +:+ "### " +:+ title c +:+ NL
  +:+ "- プロフィール: " +:+ customer_profile c +:+ NL
  +:+ "- ジャンル: " +:+ case_genre c +:+ NL
  +:+ "- 開始時: " +:+ initial_situation c +:+ NL
  +:+ "- 成果: " +:+ achievement c +:+ NL
  +:+ "- 期間: " +:+ period c +:+ NL
  +:+ "- ポイント: " +:+ success_points c +:+ NL.

(** The f-string block appended per FAQ. *)
Definition render_faq (faq : FAQ) : string :=
  NL +:+ "Q: " +:+ question faq +:+ NL +:+ "A: " +:+ answer faq +:+ NL.

(** [_get_relevant_knowledge]; the global [knowledge_base] is passed as its
    two corpora. *)
Definition _get_relevant_knowledge (success_cases : list SuccessCase) (faqs : list FAQ)
    (context : ConversationContext) (user_message : string) : string :=
  let cust := customer context in
  let knowledge_parts : list string := [] in
  let keywords := _extract_keywords user_message in
  let pv := persona_value (persona cust) in
  let cases := search_success_cases
                 (if String.eqb pv "未特定" then None else Some pv)
                 (challenges cust) None keywords (mentioned_cases context) 2
                 success_cases in
  let knowledge_parts :=
    match cases with
    | [] => knowledge_parts
    | _ => knowledge_parts ++ ["## 参考にできる成功事例"] ++ map render_case cases
    end in
  let knowledge_parts :=
    if is_question_like user_message then
      let found := search_faqs keywords None 2 faqs in
      match found with
      | [] => knowledge_parts
      | _ => knowledge_parts ++ ["## 関連するFAQ"] ++ map render_faq found
      end
    else knowledge_parts in
  match knowledge_parts with
  | [] => ""
  | _ => py_join NL knowledge_parts
  end.

(** The part of [generate_response] before the API call: the profile update,
    written back into the context, and the request's message list. *)
Definition generate_response_request (system_prompt : string)
    (success_cases : list SuccessCase) (faqs : list FAQ)
    (context : ConversationContext) (user_message : string)
    : ConversationContext * list ChatMessage :=
  let context := mkContext (analyze_message user_message (customer context))
                   (messages context) (mentioned_cases context) in
  let knowledge := _get_relevant_knowledge success_cases faqs context user_message in
  (context, _build_messages system_prompt context user_message knowledge).

Definition generate_welcome_message (c : Customer) : string :=
  let name_part := if str_truthy (display_name c)
                   then default "" (display_name c) +:+ "さん、" else "" in
  "こんにちは！" +:+ name_part
  +:+ "SnsClubの公式LINEに友だち追加していただき、ありがとうございます😊" +:+ NL
  +:+ NL
  +:+ "私はInstagram運用のサポートを担当しているAIアシスタントです。あなたの目標達成をお手伝いさせていただきますね！" +:+ NL
  +:+ NL
  +:+ "まず、簡単にお伺いしたいのですが、Instagramでどんなことに興味がありますか？✨".

(** [KnowledgeBase.get_case_by_id]. *)
Fixpoint get_case_by_id (success_cases : list SuccessCase) (id : string)
    : option SuccessCase :=
  match success_cases with
  | [] => None
  | c :: cs => if String.eqb (case_id c) id then Some c else get_case_by_id cs id
  end.

(** The [descriptions] dict of [get_persona_description].  [PersonaType] is a
    [str] enum, so its members and their string values are the same keys. *)
Definition persona_descriptions : list (string * string) := [
  (persona_value SIDE_WORKER, "本業を持ちながら副収入を求めている方");
  (persona_value CHILD_RAISING_MOM, "育児や家事と両立しながら在宅収入を求めている方");
  (persona_value BUSINESS_OWNER, "事業の集客やブランディングにInstagramを活用したい方");
  (persona_value SELF_ACHIEVER, "新しい可能性に挑戦し、自分らしい働き方を求めている方");
  (persona_value UNKNOWN, "まだ詳しくお話をお聞きできていない方")
].

(** [d.get(k, default)] on an association list. *)
Definition dict_get (d : list (string * string)) (k default_v : string) : string :=
  match find (fun e => String.eqb e.1 k) d with
  | Some e => e.2
  | None => default_v
  end.

Definition get_persona_description (persona : string) : string :=
  dict_get persona_descriptions persona
    (dict_get persona_descriptions (persona_value UNKNOWN) "").

(** A row of the [messages] table: the message and its ISO timestamp,
    modelled by a number ordered as the timestamps are. *)
Record MessageRow := mkRow {
  row_message : Message;
  row_timestamp : Z;
}.

(** [Database.get_conversation_history]: [WHERE user_id = ?
    ORDER BY timestamp DESC LIMIT ?], then [reversed].  The table is the list
    of rows in insertion order; SQLite leaves the order of equal timestamps
    open, which the stable sort here fixes as insertion order. *)
Definition get_conversation_history (rows : list MessageRow) (uid : string)
    (limit : nat) : list Message :=
  let selected := List.filter (fun r => String.eqb (msg_user_id (row_message r)) uid) rows in
  let ordered := map snd (sort_desc (map (fun r => (row_timestamp r, row_message r)) selected)) in
  rev (firstn limit ordered).

(** [Database.get_conversation_context]: the stored profile or a fresh one
    ([save_customer] of the fresh one is not modelled), the last 20 messages
    and the [mentioned_cases] rows [(user_id, case_id)] of the user. *)
Definition get_conversation_context (stored : option Customer) (rows : list MessageRow)
    (mentioned_rows : list (string * string)) (uid : string) : ConversationContext :=
  let cust := match stored with Some c => c | None => new_customer uid end in
  mkContext cust (get_conversation_history rows uid 20)
    (map snd (List.filter (fun r => String.eqb r.1 uid) mentioned_rows)).


(** A small corpus used by the concrete checks below. *)
Definition sample_case_1 : SuccessCase :=
  mkSuccessCase "case_001" "育児と両立" "30代主婦" "料理・お弁当レシピ" "初心者"
    "月収20万円" "6ヶ月" "毎日投稿" ["子育てママ"] ["時間がない"; "在宅"] ["料理"; "育児"].

Definition sample_case_2 : SuccessCase :=
  mkSuccessCase "case_002" "副業で成功" "40代会社員" "ビジネス" "未経験"
    "月収10万円" "3ヶ月" "隙間時間" ["子育てママ"; "副業ワーカー"] ["時間がない"] ["副業"].

Definition sample_faq : FAQ :=
  mkFAQ "faq_001" "料金" "料金はいくらですか？" "月額制です。" [] ["料金"; "費用"].

(** Proof auxiliaries: a sum over a list, and the number of terms of [ts]
    occurring in [s]. *)
Definition sum_entries {A} (d : A -> Z) (l : list A) : Z :=
  fold_right (fun a acc => d a + acc) 0 l.

Definition count_in (s : string) (ts : list string) : Z :=
  Z.of_nat (length (List.filter (fun t => py_in t s) ts)).

(** The lines contributed by one section of [_get_relevant_knowledge]: the
    header followed by the blocks, or nothing when there is no block. *)
Definition knowledge_section (header : string) (blocks : list string) : list string :=
  match blocks with [] => [] | _ => header :: blocks end.

(** A small [messages] table: two users, increasing timestamps. *)
Definition sample_rows : list MessageRow := [
  mkRow (mkMessage "u1" "user" "こんにちは") 1;
  mkRow (mkMessage "u2" "user" "料金は？") 2;
  mkRow (mkMessage "u1" "assistant" "ようこそ") 3;
  mkRow (mkMessage "u1" "user" "副業を始めたい") 4
].

(* ================================================================== *)
(** * Proofs *)

(** ** Persona scores *)

Lemma fold_left_additive {A} (step : (PersonaType -> Z) -> A -> PersonaType -> Z)
    (d : A -> PersonaType -> Z) :
  (forall sc a q, step sc a q = sc q + d a q) ->
  forall l sc q, fold_left step l sc q = sc q + sum_entries (fun a => d a q) l.
Proof.
  intros Hstep l. induction l as [|a l IH]; intros sc q; simpl.
  - lia.
  - rewrite IH, Hstep. lia.
Qed.

Lemma fold_term_step s w p ts sc q :
  fold_left (term_step s w p) ts sc q
  = sc q + (if persona_eqb p q then w * count_in s ts else 0).
Proof.
  revert sc. induction ts as [|t ts IH]; intros sc; simpl.
  - unfold count_in; simpl; destruct (persona_eqb p q); lia.
  - rewrite IH. unfold term_step, score_add, count_in. simpl.
    
    destruct (py_in t s), (persona_eqb p q); simpl; lia.
Qed.


Lemma occupation_phase s sc q :
  fold_left (occupation_step s) PERSONA_KEYWORDS sc q
  = sc q + (if existsb (fun k => py_in k s) (pk_occupation (persona_entry q)) then 5 else 0).
Proof.
  rewrite (fold_left_additive _ (fun e q => if persona_eqb e.1 q && existsb (fun k => py_in k s) (pk_occupation e.2) then 5 else 0)).
  - destruct q; simpl; rewrite ?Z.add_0_l, ?Z.add_0_r; reflexivity.
  - intros sc' e q'. unfold occupation_step, score_add.
    destruct (existsb _ _), (persona_eqb e.1 q'); simpl; lia.
Qed.

Lemma genre_phase s sc q :
  fold_left (genre_step s) PERSONA_KEYWORDS sc q
  = sc q + 2 * count_in s (pk_keywords (persona_entry q)).
Proof.
  rewrite (fold_left_additive _ (fun e q => if persona_eqb e.1 q then 2 * count_in s (pk_keywords e.2) else 0)).
  - destruct q; simpl; rewrite ?Z.add_0_l, ?Z.add_0_r; reflexivity.
  - intros sc' e q'. unfold genre_step. apply fold_term_step.
Qed.

Lemma challenge_phase s sc q :
  fold_left (challenge_step s) PERSONA_KEYWORDS sc q
  = sc q + 3 * count_in s (pk_challenges (persona_entry q)).
Proof.
  rewrite (fold_left_additive _ (fun e q => if persona_eqb e.1 q then 3 * count_in s (pk_challenges e.2) else 0)).
  - destruct q; simpl; rewrite ?Z.add_0_l, ?Z.add_0_r; reflexivity.
  - intros sc' e q'. unfold challenge_step. apply fold_term_step.
Qed.

Lemma persona_scores_spec c q :
  persona_scores c q = spec_persona_score c q.
Proof.
  unfold persona_scores, spec_persona_score.
  destruct c as [uid dn occ gs chs gl p st pr sr].
  assert (Hk : count_in "" (pk_keywords (persona_entry q)) = 0) by (destruct q; reflexivity).
  assert (Hc : count_in "" (pk_challenges (persona_entry q)) = 0) by (destruct q; reflexivity).
  assert (Ho : existsb (fun k => py_in k "") (pk_occupation (persona_entry q)) = false)
    by (destruct q; reflexivity).
  destruct occ as [[|a o]|]; destruct gs as [|g gs]; destruct chs as [|ch chs];
    cbn [occupation interest_genre challenges str_truthy default];
    rewrite ?challenge_phase, ?genre_phase, ?occupation_phase; unfold scores0;
    cbn [py_join id]; unfold count_in in *; rewrite ?Ho, ?Hk, ?Hc; lia.
Qed.
(** Scenarios A, B and C of the spec. *)
Example scenario_A :
  occupation (analyze_message "私は会社員です。平日は仕事で忙しいです。" (new_customer "u"))
  = Some "会社員".
Proof. vm_compute. reflexivity. Qed.

Example scenario_B :
  occupation (analyze_message "専業主婦をしています。子どもが2人います。" (new_customer "u"))
  = Some "主婦".
Proof. vm_compute. reflexivity. Qed.

Example scenario_C :
  _estimate_persona (mkCustomer "u" None (Some "会社員") []
                       ["時間が無い"; "副業"] None UNKNOWN INITIAL EnumValue EnumValue) = SIDE_WORKER.
Proof. vm_compute. reflexivity. Qed.

(** [str.lower()] on Greek with a final sigma, full-width Latin and U+0130. *)
Example py_lower_unicode :
  py_lower "ΟΔΟΣ ＩＮＳＴＡＧＲＡＭ İ" = "οδος ｉｎｓｔａｇｒａｍ i̇" /\
  py_lower "ΣΑ" = "σα".
Proof. vm_compute. split; reflexivity. Qed.

(** ** Selection of the persona with the maximum score *)

Lemma estimate_select (sc : PersonaType -> Z) :
  let p := if Z.ltb 0 (max_score sc)
           then first_with_score sc (max_score sc) SCORE_KEYS else UNKNOWN in
  ((exists q, In q SCORE_KEYS /\ 0 < sc q) ->
     In p SCORE_KEYS /\ (forall q, In q SCORE_KEYS -> sc q <= sc p) /\
     (forall q, In q SCORE_KEYS -> (persona_rank q < persona_rank p)%nat -> sc q < sc p)) /\
  ((forall q, In q SCORE_KEYS -> sc q <= 0) -> p = UNKNOWN).
Proof.
  unfold max_score, first_with_score, SCORE_KEYS; cbn [map fold_left].
  match goal with |- context[Z.ltb 0 ?m] => destruct (Z.ltb_spec 0 m) as [Hm|Hm] end;
  repeat match goal with |- context[Z.eqb ?a ?b] => destruct (Z.eqb_spec a b) as [?E|?E] end;
  split; intros H;
  try (destruct H as [q0 [Hq0 Hpos]]; simpl in Hq0;
       repeat destruct Hq0 as [<-|Hq0]; [..|contradiction]);
  try (exfalso; lia);
  try (split; [simpl; tauto|]; split;
       [intros q Hq; simpl in Hq; repeat destruct Hq as [<-|Hq]; [..|contradiction]; lia
       |intros q Hq Hr; simpl in Hq; repeat destruct Hq as [<-|Hq]; [..|contradiction];
        simpl in Hr; lia]);
  try reflexivity;
  try (exfalso; pose proof (H SIDE_WORKER ltac:(simpl; tauto));
       pose proof (H CHILD_RAISING_MOM ltac:(simpl; tauto));
       pose proof (H BUSINESS_OWNER ltac:(simpl; tauto));
       pose proof (H SELF_ACHIEVER ltac:(simpl; tauto)); lia).
Qed.

(** ** Profile updates *)

Lemma update_profile_persona m c : persona (update_profile m c) = persona c.
Proof.
  unfold update_profile.
  destruct (str_truthy _ && _), (_extract_genres m), (_extract_challenges m); reflexivity.
Qed.

Lemma update_profile_occupation m c :
  occupation (update_profile m c)
  = if str_truthy (_extract_occupation m) && negb (str_truthy (occupation c))
    then _extract_occupation m else occupation c.
Proof.
  unfold update_profile.
  destruct (str_truthy _ && _), (_extract_genres m), (_extract_challenges m); reflexivity.
Qed.

Lemma py_set_union_l (a b : list string) : a ⊆ py_set_union a b.
Proof.
  intros x Hx. unfold py_set_union. rewrite elem_of_elements. set_solver.
Qed.

Lemma update_profile_mono m c :
  interest_genre c ⊆ interest_genre (update_profile m c) /\
  challenges c ⊆ challenges (update_profile m c).
Proof.
  unfold update_profile.
  destruct (str_truthy _ && _), (_extract_genres m), (_extract_challenges m);
    simpl; split; try reflexivity; apply py_set_union_l.
Qed.

(** The persona step of [analyze_message] leaves the other fields alone. *)
Lemma analyze_message_fields m c :
  occupation (analyze_message m c) = occupation (update_profile m c) /\
  interest_genre (analyze_message m c) = interest_genre (update_profile m c) /\
  challenges (analyze_message m c) = challenges (update_profile m c).
Proof.
  unfold analyze_message. cbv zeta.
  set (c3 := update_profile m c).
  destruct (persona_eqb (persona c3) UNKNOWN || String.eqb (persona_value (persona c3)) "未特定");
    repeat split; reflexivity.
Qed.

Lemma analyze_message_unknown m c :
  persona c = UNKNOWN ->
  analyze_message m c = set_persona (update_profile m c) (_estimate_persona (update_profile m c)).
Proof.
  intros Hu. unfold analyze_message. rewrite update_profile_persona, Hu. reflexivity.
Qed.

Lemma spec_persona_score_set_persona c p :
  spec_persona_score (set_persona c p) = spec_persona_score c.
Proof. reflexivity. Qed.

Lemma persona_set_persona c p : persona (set_persona c p) = p.
Proof. reflexivity. Qed.

(** [_estimate_persona] picks, by [estimate_select], from the scores of
    [spec_persona_score]. *)
Lemma estimate_persona_spec (c : Customer) :
  let S := spec_persona_score c in
  let p := _estimate_persona c in
  ((exists q, In q SCORE_KEYS /\ 0 < S q) ->
     In p SCORE_KEYS /\ (forall q, In q SCORE_KEYS -> S q <= S p) /\
     (forall q, In q SCORE_KEYS -> (persona_rank q < persona_rank p)%nat -> S q < S p)) /\
  ((forall q, In q SCORE_KEYS -> S q <= 0) -> p = UNKNOWN).
Proof.
  simpl. destruct (estimate_select (persona_scores c)) as [H1 H2].
  unfold _estimate_persona. split.
  - intros [q0 [Hq0 Hpos]]. rewrite <- persona_scores_spec in Hpos.
    destruct (H1 (ex_intro _ q0 (conj Hq0 Hpos))) as [Hin [Hle Hlt]].
    split; [exact Hin|split].
    + intros q Hq. rewrite <- !persona_scores_spec. auto.
    + intros q Hq Hr. rewrite <- !persona_scores_spec. auto.
  - intros Hz. apply H2. intros q Hq. rewrite persona_scores_spec. auto.
Qed.

(** ** C1: persona inference *)

(** C1. For a profile whose persona is Unknown, [analyze_message] scores the
    four determinable personas on the updated profile (+5 once for an
    occupation term, +2 per persona keyword in the joined genres, +3 per
    persona challenge phrase in the joined challenges, as in
    [spec_persona_score]); when the maximum is positive it assigns a persona
    with the maximum score, and when the maximum is 0 (all scores 0) it
    leaves the persona Unknown. *)
Theorem C1_persona_inference_max (m : string) (c : Customer) :
  persona c = UNKNOWN ->
  let c' := analyze_message m c in
  let S := spec_persona_score c' in
  ((exists q, In q SCORE_KEYS /\ 0 < S q) ->
     In (persona c') SCORE_KEYS /\ (forall q, In q SCORE_KEYS -> S q <= S (persona c'))) /\
  ((forall q, In q SCORE_KEYS -> S q = 0) -> persona c' = UNKNOWN).
Proof.
  intros Hu. simpl. rewrite (analyze_message_unknown m c Hu).
  destruct (estimate_persona_spec (update_profile m c)) as [H1 H2]. simpl in H1, H2.
  rewrite persona_set_persona, spec_persona_score_set_persona. split.
  - intros Hex.     destruct (H1 Hex) as [Hin [Hle _]]. split; [exact Hin|].
    intros q Hq. auto.
  - intros Hz. apply H2. intros q Hq.
    specialize (Hz q Hq). lia.
Qed.

(** ** C10: tie-break by table order *)

(** C10. When the maximum persona score is positive, the persona assigned
    has the maximum score and is, among the personas sharing that maximum,
    the first in the table order SideWorker, ChildRaisingMom, BusinessOwner,
    SelfAchiever. *)
Theorem C10_tie_break_first_in_table (m : string) (c : Customer) :
  persona c = UNKNOWN ->
  let c' := analyze_message m c in
  let S := spec_persona_score c' in
  (exists q, In q SCORE_KEYS /\ 0 < S q) ->
  In (persona c') SCORE_KEYS /\
  (forall q, In q SCORE_KEYS -> S q <= S (persona c')) /\
  (forall q, In q SCORE_KEYS -> S q = S (persona c') ->
     (persona_rank (persona c') <= persona_rank q)%nat).
Proof.
  intros Hu. simpl. rewrite (analyze_message_unknown m c Hu).
  destruct (estimate_persona_spec (update_profile m c)) as [H1 _]. simpl in H1.
  rewrite persona_set_persona, spec_persona_score_set_persona. intros Hex.
    destruct (H1 Hex) as [Hin [Hle Hlt]].
  split; [exact Hin|split].
  - intros q Hq. auto.
  - intros q Hq Heq. destruct (Nat.lt_ge_cases (persona_rank q) (persona_rank (_estimate_persona (update_profile m c))))
      as [Hr|Hr]; [|exact Hr].
    specialize (Hlt q Hq Hr). lia.
Qed.

(** ** C2: persona stability *)

Lemma analyze_message_persona_known m c :
  persona c <> UNKNOWN -> persona (analyze_message m c) = persona c.
Proof.
  intros Hk. unfold analyze_message. cbv zeta.
  rewrite update_profile_persona.
  assert (Hc : persona_eqb (persona c) UNKNOWN
               || String.eqb (persona_value (persona c)) "未特定" = false)
    by (destruct (persona c); [reflexivity..|congruence]).
  rewrite Hc. apply update_profile_persona.
Qed.

Lemma fold_left_invariant {A B} (P : A -> Prop) (f : A -> B -> A) :
  (forall a b, P a -> P (f a b)) -> forall l a, P a -> P (fold_left f l a).
Proof.
  intros Hf l. induction l as [|b l IH]; intros a Ha; [exact Ha|].
  apply IH, Hf, Ha.
Qed.

(** C2. Once the persona of a profile is not Unknown, no sequence of
    [analyze_message] calls changes it, whatever the utterances. *)
Theorem C2_persona_stable (ms : list string) (c : Customer) :
  persona c <> UNKNOWN -> persona (analyze_messages ms c) = persona c.
Proof.
  intros Hk. unfold analyze_messages.
  apply (fold_left_invariant (fun c' => persona c' = persona c)); [|reflexivity].
  intros c' m Hc'. rewrite <- Hc'. apply analyze_message_persona_known.
  rewrite Hc'. exact Hk.
Qed.

(** ** C3: monotone genre and challenge sets *)

Lemma analyze_message_mono m c :
  interest_genre c ⊆ interest_genre (analyze_message m c) /\
  challenges c ⊆ challenges (analyze_message m c).
Proof.
  destruct (analyze_message_fields m c) as [_ [-> ->]].
  apply update_profile_mono.
Qed.

(** C3. Along any sequence of utterances, the call number [n + 1] leaves the
    interest genres and the challenges of the profile supersets of what they
    were after call [n]. *)
Theorem C3_sets_grow_monotonically (ms : list string) (c : Customer) (n : nat) :
  let before := analyze_messages (take n ms) c in
  let after := analyze_messages (take (S n) ms) c in
  interest_genre before ⊆ interest_genre after /\
  challenges before ⊆ challenges after.
Proof.
  simpl. destruct (ms !! n) as [m|] eqn:E.
  - rewrite (take_S_r _ _ _ E). unfold analyze_messages. rewrite fold_left_app.
    simpl. apply analyze_message_mono.
  - apply lookup_ge_None in E.
    rewrite (take_ge ms n) by lia. rewrite (take_ge ms (S n)) by lia.
    split; reflexivity.
Qed.

(** ** C7: first-write-wins occupation *)

Lemma first_occupation_truthy pats m o :
  Forall (fun e => str_truthy (Some e.2) = true) pats ->
  first_occupation pats m = Some o -> str_truthy (Some o) = true.
Proof.
  induction 1 as [|[pat occ] pats Hx _ IH]; simpl; [discriminate|].
  destruct (re_search pat m); [intros [= <-]; exact Hx | exact IH].
Qed.

Lemma extract_occupation_truthy m o :
  _extract_occupation m = Some o -> str_truthy (Some o) = true.
Proof. apply first_occupation_truthy. repeat constructor. Qed.

Lemma analyze_message_occupation m c :
  occupation (analyze_message m c)
  = if str_truthy (_extract_occupation m) && negb (str_truthy (occupation c))
    then _extract_occupation m else occupation c.
Proof.
  destruct (analyze_message_fields m c) as [-> _].
  apply update_profile_occupation.
Qed.

(** C7. The occupation is written only when unset, with the first matching
    pattern's label, and applying [analyze_message] twice with the same
    utterance yields the same occupation as applying it once. *)
Theorem C7_occupation_idempotent (m : string) (c : Customer) :
  occupation (analyze_message m c)
    = (if str_truthy (occupation c) then occupation c
       else match _extract_occupation m with
            | Some o => Some o
            | None => occupation c
            end) /\
  occupation (analyze_message m (analyze_message m c))
    = occupation (analyze_message m c).
Proof.
  rewrite !analyze_message_occupation.
  destruct (_extract_occupation m) as [[|a o]|] eqn:E.
  - apply extract_occupation_truthy in E. discriminate E.
  - destruct (str_truthy (occupation c)) eqn:Hoc; simpl; rewrite ?Hoc;
      split; reflexivity.
  - simpl. destruct (str_truthy (occupation c)); split; reflexivity.
Qed.

(** ** Witnesses *)

Lemma C1_persona_inference_max_witness :
  persona (new_customer "u") = UNKNOWN /\
  (let c' := analyze_message "会社員で時間が無いです" (new_customer "u") in
   let S := spec_persona_score c' in
   ((exists q, In q SCORE_KEYS /\ 0 < S q) ->
      In (persona c') SCORE_KEYS /\ (forall q, In q SCORE_KEYS -> S q <= S (persona c'))) /\
   ((forall q, In q SCORE_KEYS -> S q = 0) -> persona c' = UNKNOWN)).
Proof.
  split; [reflexivity|].
  apply (C1_persona_inference_max "会社員で時間が無いです" (new_customer "u")).
  reflexivity.
Defined.

(** A tie: SideWorker and ChildRaisingMom both score 3. *)
Definition tied_customer : Customer :=
  mkCustomer "u" None None [] ["時間が無い"; "在宅で"] None UNKNOWN INITIAL EnumValue EnumValue.

Lemma C10_tie_break_first_in_table_witness :
  persona tied_customer = UNKNOWN /\
  spec_persona_score (analyze_message "" tied_customer) SIDE_WORKER = 3 /\
  spec_persona_score (analyze_message "" tied_customer) CHILD_RAISING_MOM = 3 /\
  persona (analyze_message "" tied_customer) = SIDE_WORKER /\
  (let c' := analyze_message "" tied_customer in
   let S := spec_persona_score c' in
   In (persona c') SCORE_KEYS /\
   (forall q, In q SCORE_KEYS -> S q <= S (persona c')) /\
   (forall q, In q SCORE_KEYS -> S q = S (persona c') ->
      (persona_rank (persona c') <= persona_rank q)%nat)).
Proof.
  split; [reflexivity|]. split; [vm_compute; reflexivity|].
  split; [vm_compute; reflexivity|]. split; [vm_compute; reflexivity|].
  apply (C10_tie_break_first_in_table "" tied_customer); [reflexivity|].
  exists SIDE_WORKER. split; [simpl; tauto|vm_compute; reflexivity].
Defined.

Lemma C2_persona_stable_witness :
  SIDE_WORKER <> UNKNOWN /\
  persona (analyze_messages ["専業主婦をしています。"; "子育て中です"]
             (set_persona (new_customer "u") SIDE_WORKER)) = SIDE_WORKER.
Proof.
  split; [discriminate|].
  apply (C2_persona_stable _ (set_persona (new_customer "u") SIDE_WORKER)).
  discriminate.
Defined.

(** ** Stable descending sort *)

Section StableSort.
Context {A : Type}.

Lemma insert_desc_filter (x : Z * A) (l : list (Z * A)) (s : Z) :
  List.filter (fun y => Z.eqb y.1 s) (insert_desc x l)
  = if Z.eqb x.1 s then x :: List.filter (fun y => Z.eqb y.1 s) l
    else List.filter (fun y => Z.eqb y.1 s) l.
Proof.
  induction l as [|y l IH]; simpl.
  - destruct (Z.eqb x.1 s); reflexivity.
  - destruct (Z.ltb_spec x.1 y.1) as [Hlt|Hge]; simpl.
    + rewrite IH.
      destruct (Z.eqb_spec x.1 s), (Z.eqb_spec y.1 s); simpl; try lia; reflexivity.
    + destruct (Z.eqb x.1 s); reflexivity.
Qed.

Lemma sort_desc_filter (l : list (Z * A)) (s : Z) :
  List.filter (fun y => Z.eqb y.1 s) (sort_desc l)
  = List.filter (fun y => Z.eqb y.1 s) l.
Proof.
  induction l as [|x l IH]; simpl; [reflexivity|].
  rewrite insert_desc_filter, IH. reflexivity.
Qed.

Lemma insert_desc_perm (x : Z * A) (l : list (Z * A)) :
  Permutation (insert_desc x l) (x :: l).
Proof.
  induction l as [|y l IH]; simpl; [reflexivity|].
  destruct (Z.ltb x.1 y.1); [|reflexivity].
  rewrite IH. constructor.
Qed.

Lemma sort_desc_perm (l : list (Z * A)) : Permutation (sort_desc l) l.
Proof.
  induction l as [|x l IH]; simpl; [reflexivity|].
  rewrite insert_desc_perm, IH. reflexivity.
Qed.

Let R (x y : Z * A) : Prop := y.1 <= x.1.

Lemma insert_desc_sorted (x : Z * A) (l : list (Z * A)) :
  Sorted R l -> Sorted R (insert_desc x l).
Proof.
  induction 1 as [|y l Hs IH Hhd]; simpl.
  - repeat constructor.
  - destruct (Z.ltb_spec x.1 y.1) as [Hlt|Hge].
    + constructor; [exact IH|].
      destruct l as [|z l]; simpl; [constructor; unfold R; lia|].
      inversion Hhd; subst.
      destruct (Z.ltb x.1 z.1); constructor; unfold R in *; lia.
    + constructor; [constructor; assumption|]. constructor. unfold R. lia.
Qed.

Lemma sort_desc_sorted (l : list (Z * A)) :
  StronglySorted R (sort_desc l).
Proof.
  apply Sorted_StronglySorted; [intros a b c; unfold R; lia|].
  induction l as [|x l IH]; simpl; [constructor|].
  apply insert_desc_sorted, IH.
Qed.
End StableSort.

Section Ranking.
Context {A : Type} (score : A -> Z).

Lemma keyed_perm_forall (P : list (Z * A)) (L : list A) :
  Permutation P (keyed score L) -> Forall (fun x => x.1 = score x.2) P.
Proof.
  intros Hp. apply (Permutation_Forall (Permutation_sym Hp)).
  unfold keyed. apply List.Forall_forall. intros x Hx.
  apply in_map_iff in Hx as [a [<- _]]. reflexivity.
Qed.

Lemma filter_map_snd (P : list (Z * A)) (s : Z) :
  Forall (fun x => x.1 = score x.2) P ->
  List.filter (fun a => Z.eqb (score a) s) (map snd P)
  = map snd (List.filter (fun x => Z.eqb x.1 s) P).
Proof.
  induction 1 as [|x P Hx _ IH]; simpl; [reflexivity|].
  rewrite Hx, IH. destruct (Z.eqb (score x.2) s); reflexivity.
Qed.

Lemma sorted_map_snd (P : list (Z * A)) :
  Forall (fun x => x.1 = score x.2) P ->
  StronglySorted (fun x y => y.1 <= x.1) P ->
  StronglySorted (fun a b => score b <= score a) (map snd P).
Proof.
  induction 1 as [|x P Hx HP IH]; intros Hs; simpl; [constructor|].
  inversion Hs as [|? ? Hs' Hall]; subst. constructor; [auto|].
  apply Forall_map. apply List.Forall_forall. intros y Hy.
  rewrite List.Forall_forall in Hall, HP.
  specialize (Hall y Hy). specialize (HP y Hy). lia.
Qed.

Lemma filter_keyed (L : list A) (s : Z) :
  List.filter (fun x => Z.eqb x.1 s) (keyed score L)
  = keyed score (List.filter (fun a => Z.eqb (score a) s) L).
Proof.
  induction L as [|a L IH]; simpl; [reflexivity|].
  rewrite IH. destruct (Z.eqb (score a) s); reflexivity.
Qed.

Lemma map_snd_keyed (L : list A) : map snd (keyed score L) = L.
Proof.
  induction L as [|a L IH]; simpl; [reflexivity|]. rewrite IH. reflexivity.
Qed.

(** The sort of [search_*] applied to [keyed score L] yields the stable
    descending order of [L]. *)
Lemma sort_keyed_stable (L : list A) :
  stable_desc_sorted score L (map snd (sort_desc (keyed score L))).
Proof.
  pose proof (keyed_perm_forall _ L (sort_desc_perm _)) as Hf.
  split.
  - apply sorted_map_snd; [exact Hf|]. apply sort_desc_sorted.
  - intros s. rewrite filter_map_snd by exact Hf.
    rewrite sort_desc_filter, filter_keyed, map_snd_keyed. reflexivity.
Qed.

Lemma filter_eqb_in (l : list A) (a : A) :
  In a l -> In a (List.filter (fun b => Z.eqb (score b) (score a)) l).
Proof. intros H. apply filter_In. split; [exact H|apply Z.eqb_refl]. Qed.

Lemma stable_desc_in (L S : list A) (a : A) :
  stable_desc_sorted score L S -> In a S -> In a L.
Proof.
  intros [_ Hf] Ha. apply (filter_eqb_in S a) in Ha. rewrite Hf in Ha.
  apply filter_In in Ha. tauto.
Qed.

(** The stable descending order is unique. *)
Lemma stable_desc_unique (L S1 S2 : list A) :
  stable_desc_sorted score L S1 -> stable_desc_sorted score L S2 -> S1 = S2.
Proof.
  intros [Hs1 Hf1] [Hs2 Hf2].
  assert (Hf : forall s, List.filter (fun a => Z.eqb (score a) s) S1
                         = List.filter (fun a => Z.eqb (score a) s) S2)
    by (intros s; rewrite Hf1, Hf2; reflexivity).
  clear L Hf1 Hf2. revert S2 Hs2 Hf.
  induction Hs1 as [|a S1 Hs1 IH Hall1]; intros S2 Hs2 Hf.
  - destruct S2 as [|b S2]; [reflexivity|].
    specialize (Hf (score b)). simpl in Hf. rewrite Z.eqb_refl in Hf. discriminate.
  - destruct Hs2 as [|b S2 Hs2 Hall2].
    + specialize (Hf (score a)). simpl in Hf. rewrite Z.eqb_refl in Hf. discriminate.
    + assert (Hab : score a = score b).
      { pose proof (filter_eqb_in (b :: S2) b (or_introl eq_refl)) as Hb.
        rewrite <- Hf in Hb. apply filter_In in Hb as [Hb Hb'].
        apply Z.eqb_eq in Hb'.
        pose proof (filter_eqb_in (a :: S1) a (or_introl eq_refl)) as Ha.
        rewrite Hf in Ha. apply filter_In in Ha as [Ha Ha'].
        apply Z.eqb_eq in Ha'.
        rewrite List.Forall_forall in Hall1, Hall2.
        destruct Hb as [->|Hb]; [reflexivity|].
        destruct Ha as [->|Ha]; [reflexivity|].
        specialize (Hall1 b Hb). specialize (Hall2 a Ha). lia. }
      pose proof (Hf (score a)) as Hfa. simpl in Hfa.
      rewrite Z.eqb_refl, <- Hab, Z.eqb_refl in Hfa. injection Hfa as <- Hfa.
      f_equal. apply IH; [exact Hs2|].
      intros s. specialize (Hf s). simpl in Hf.
      destruct (Z.eqb_spec (score a) s) as [Heq|Hne]; [rewrite <- Heq; exact Hfa|].
      apply Z.eqb_neq in Hne. rewrite ?Hne in Hf. exact Hf.
Qed.

Lemma py_slice_to_in (S : list A) (limit : Z) (a : A) :
  In a (py_slice_to S limit) -> In a S.
Proof.
  intros H. rewrite <- (firstn_skipn (if Z.leb 0 limit then Z.to_nat limit
                                      else (length S - Z.to_nat (- limit))%nat) S).
  apply in_or_app. left. unfold py_slice_to in H. destruct (Z.leb 0 limit); exact H.
Qed.

Lemma py_slice_to_length (S : list A) (limit : Z) :
  0 <= limit -> (length (py_slice_to S limit) <= Z.to_nat limit)%nat.
Proof.
  intros H. unfold py_slice_to. destruct (Z.leb_spec 0 limit); [|lia].
  rewrite length_firstn. lia.
Qed.
End Ranking.

(** ** Ranked searches *)

Lemma collect_cases_keyed persona challenges genre keywords exclude_ids cases :
  collect_cases persona challenges genre keywords exclude_ids cases
  = keyed (case_score persona challenges genre keywords)
      (List.filter (fun c => negb (py_list_in (case_id c) exclude_ids)
                             && Z.ltb 0 (case_score persona challenges genre keywords c))
         cases).
Proof.
  induction cases as [|c cs IH]; simpl; [reflexivity|].
  destruct (py_list_in (case_id c) exclude_ids); simpl; [exact IH|].
  destruct (Z.ltb 0 _); simpl; rewrite IH; reflexivity.
Qed.

Lemma collect_faqs_keyed keywords category_arg faqs :
  collect_faqs keywords category_arg faqs
  = keyed (faq_score keywords category_arg)
      (List.filter (fun f => Z.ltb 0 (faq_score keywords category_arg f)) faqs).
Proof.
  induction faqs as [|f fs IH]; simpl; [reflexivity|].
  destruct (Z.ltb 0 _); simpl; rewrite IH; reflexivity.
Qed.

(** Output shape shared by both searches. *)
Lemma ranked_output {A} (score : A -> Z) (L : list A) (limit : Z) :
  (forall a, In a L -> 0 < score a) ->
  let out := map snd (py_slice_to (sort_desc (keyed score L)) limit) in
  (forall r, In r out -> 0 < score r /\ In r L) /\
  (exists S, stable_desc_sorted score L S /\
             (forall S', stable_desc_sorted score L S' -> S' = S) /\
             out = py_slice_to S limit) /\
  (0 <= limit -> (length out <= Z.to_nat limit)%nat).
Proof.
  intros Hpos out.
  assert (Hout : out = py_slice_to (map snd (sort_desc (keyed score L))) limit).
  { unfold out, py_slice_to. destruct (Z.leb 0 limit);
      rewrite firstn_map, ?length_map; reflexivity. }
  pose proof (sort_keyed_stable score L) as Hst.
  split; [|split].
  - intros r Hr. rewrite Hout in Hr. apply py_slice_to_in in Hr.
    apply (stable_desc_in score L) in Hr; [|exact Hst]. auto.
  - exists (map snd (sort_desc (keyed score L))). split; [exact Hst|split; [|exact Hout]].
    intros S' HS'. apply (stable_desc_unique score L); assumption.
  - intros Hl. rewrite Hout. apply py_slice_to_length; exact Hl.
Qed.

Lemma py_list_in_false x l : py_list_in x l = false -> ~ In x l.
Proof.
  unfold py_list_in. intros H Hin.
  assert (existsb (String.eqb x) l = true) as Ht
    by (apply existsb_exists; exists x; split; [exact Hin|apply String.eqb_refl]).
  congruence.
Qed.

(** C4 (amended). For every corpus, query and limit, [search_success_cases]
    and [search_faqs] return only records of strictly positive score, taken
    from the stable descending order of the scored records (sorted by
    non-increasing score, equal scores in corpus order; this order is
    unique, so repeated calls give the same output), cut with the Python
    slice [[:limit]]: at most [limit] records when [limit >= 0]. *)
Theorem C4_ranking_stable_sorted_sliced
    (persona_arg : option string) (challenges_arg : list string)
    (genre_arg : option string) (keywords exclude_ids : list string)
    (cases : list SuccessCase)
    (faq_keywords_arg : list string) (category_arg : option string) (faqs : list FAQ)
    (limit : Z) :
  let cscore := case_score persona_arg challenges_arg genre_arg keywords in
  let ccands := List.filter (fun c => negb (py_list_in (case_id c) exclude_ids)
                                      && Z.ltb 0 (cscore c)) cases in
  let cout := search_success_cases persona_arg challenges_arg genre_arg keywords
                exclude_ids limit cases in
  let fscore := faq_score faq_keywords_arg category_arg in
  let fcands := List.filter (fun f => Z.ltb 0 (fscore f)) faqs in
  let fout := search_faqs faq_keywords_arg category_arg limit faqs in
  ((forall r, In r cout -> 0 < cscore r) /\
   (exists S, stable_desc_sorted cscore ccands S /\
              (forall S', stable_desc_sorted cscore ccands S' -> S' = S) /\
              cout = py_slice_to S limit) /\
   (0 <= limit -> (length cout <= Z.to_nat limit)%nat)) /\
  ((forall r, In r fout -> 0 < fscore r) /\
   (exists S, stable_desc_sorted fscore fcands S /\
              (forall S', stable_desc_sorted fscore fcands S' -> S' = S) /\
              fout = py_slice_to S limit) /\
   (0 <= limit -> (length fout <= Z.to_nat limit)%nat)).
Proof.
  intros cscore ccands cout fscore fcands fout. split.
  - assert (Hpos : forall a, In a ccands -> 0 < cscore a).
    { intros a Ha. apply filter_In in Ha as [_ Ha].
      apply andb_prop in Ha as [_ Ha]. apply Z.ltb_lt in Ha. exact Ha. }
    destruct (ranked_output cscore ccands limit Hpos) as [H1 [H2 H3]].
    unfold cout, search_success_cases. rewrite collect_cases_keyed.
    split; [intros r Hr; apply H1, Hr|split; assumption].
  - assert (Hpos : forall a, In a fcands -> 0 < fscore a).
    { intros a Ha. apply filter_In in Ha as [_ Ha]. apply Z.ltb_lt in Ha. exact Ha. }
    destruct (ranked_output fscore fcands limit Hpos) as [H1 [H2 H3]].
    unfold fout, search_faqs. rewrite collect_faqs_keyed.
    split; [intros r Hr; apply H1, Hr|split; assumption].
Qed.

(** C5. No success case whose id is in [exclude_ids] is returned by
    [search_success_cases], whatever its score. *)
Theorem C5_excluded_never_returned
    (persona_arg : option string) (challenges_arg : list string)
    (genre_arg : option string) (keywords exclude_ids : list string)
    (limit : Z) (cases : list SuccessCase) (r : SuccessCase) :
  In r (search_success_cases persona_arg challenges_arg genre_arg keywords
          exclude_ids limit cases) ->
  ~ In (case_id r) exclude_ids.
Proof.
  set (cscore := case_score persona_arg challenges_arg genre_arg keywords).
  set (ccands := List.filter (fun c => negb (py_list_in (case_id c) exclude_ids)
                                       && Z.ltb 0 (cscore c)) cases).
  assert (Hpos : forall a, In a ccands -> 0 < cscore a).
  { intros a Ha. apply filter_In in Ha as [_ Ha].
    apply andb_prop in Ha as [_ Ha]. apply Z.ltb_lt in Ha. exact Ha. }
  destruct (ranked_output cscore ccands limit Hpos) as [H1 _].
  unfold search_success_cases. rewrite collect_cases_keyed. intros Hr.
  apply H1 in Hr as [_ Hr]. apply filter_In in Hr as [_ Hr].
  apply andb_prop in Hr as [Hr _]. apply negb_true_iff in Hr.
  apply py_list_in_false, Hr.
Qed.

(** ** FAQ scores *)

Lemma faq_fold_sum (keywords : list string) (faq : FAQ) (s : Z) :
  fold_left (fun score k =>
    let score := if py_in k (question faq) then score + 3 else score in
    let score := if py_list_in k (faq_keywords faq) then score + 2 else score in
    if py_in k (answer faq) then score + 1 else score) keywords s
  = s + fold_right (fun k acc =>
      (if py_in k (question faq) then 3 else 0)
      + (if py_list_in k (faq_keywords faq) then 2 else 0)
      + (if py_in k (answer faq) then 1 else 0) + acc) 0 keywords.
Proof.
  revert s. induction keywords as [|k ks IH]; intros s; simpl; [lia|].
  rewrite IH.
  destruct (py_in k (question faq)), (py_list_in k (faq_keywords faq)),
    (py_in k (answer faq)); lia.
Qed.

(** C6 (amended). The FAQ score is +2 when the supplied category is
    non-empty and a substring of the record's category, plus, for each
    keyword, +3 if it occurs in the question, +2 if it is one of the
    record's keywords and +1 if it occurs in the answer, all accumulating;
    so it equals the spec's sum whenever the category is not [""]. *)
Theorem C6_faq_score_sum (keywords : list string) (category_arg : option string)
    (faq : FAQ) :
  faq_score keywords category_arg faq
  = (match category_arg with
     | Some c => if str_truthy category_arg && py_in c (category faq) then 2 else 0
     | None => 0
     end)
    + fold_right (fun k acc =>
        (if py_in k (question faq) then 3 else 0)
        + (if py_list_in k (faq_keywords faq) then 2 else 0)
        + (if py_in k (answer faq) then 1 else 0) + acc) 0 keywords /\
  (category_arg <> Some "" ->
   faq_score keywords category_arg faq = spec_faq_score keywords category_arg faq).
Proof.
  unfold faq_score, spec_faq_score. cbv zeta. rewrite !faq_fold_sum.
  unfold opt_str_test. split.
  - destruct category_arg as [c|]; [|lia].
    destruct (str_truthy (Some c) && py_in c (category faq)); lia.
  - intros Hne. destruct category_arg as [[|a c]|]; [congruence| |lia].
    cbn [str_truthy andb]. destruct (py_in (String a c) (category faq)); lia.
Qed.

(** C6 as stated fails for the empty category [""]: it is a substring of
    every category, but the guard [if category and ...] gives no +2, so the
    record scores 0 and is not returned. *)
Lemma C6_empty_category_counterexample :
  faq_score [] (Some "") sample_faq = 0 /\
  spec_faq_score [] (Some "") sample_faq = 2 /\
  search_faqs [] (Some "") 3 [sample_faq] = [].
Proof. vm_compute. repeat split; reflexivity. Qed.

(** C4 as stated fails for a negative [limit]: [results[:-1]] drops the
    last record instead of keeping at most [-1] of them. *)
Lemma C4_negative_limit_counterexample :
  let out := search_success_cases (Some "子育てママ") [] None [] [] (-1)
               [sample_case_1; sample_case_2] in
  out = [sample_case_1] /\ ~ (Z.of_nat (length out) <= -1).
Proof.
  cbv zeta.
  assert (Ho : search_success_cases (Some "子育てママ") [] None [] [] (-1)
                 [sample_case_1; sample_case_2] = [sample_case_1])
    by (vm_compute; reflexivity).
  rewrite Ho. split; [reflexivity|simpl; lia].
Qed.

Lemma C5_excluded_never_returned_witness :
  In sample_case_2 (search_success_cases (Some "子育てママ") ["時間がない"] None []
                      ["case_001"] 2 [sample_case_1; sample_case_2]) /\
  ~ In (case_id sample_case_2) ["case_001"].
Proof.
  assert (H : In sample_case_2 (search_success_cases (Some "子育てママ") ["時間がない"] None []
                      ["case_001"] 2 [sample_case_1; sample_case_2]))
    by (vm_compute; left; reflexivity).
  split; [exact H|].
  exact (C5_excluded_never_returned _ _ _ _ _ _ _ _ H).
Defined.

(** ** Context assembly *)



(** A persona set by [analyze_message] is an enum member, rendered by its
    name in the summary. *)
Example customer_info_assigned_persona :
  customer_info (set_persona (new_customer "u") SIDE_WORKER)
  = ["推定ペルソナ: PersonaType.SIDE_WORKER"; "ステータス: ConversationStatus.INITIAL"].
Proof. vm_compute. reflexivity. Qed.

(** C9. [_build_messages] sends the system prompt, then the last
    [min 10 (length history)] messages of the history in their original
    (oldest-first) order, then the current user message. *)
Theorem C9_history_last_ten (system_prompt : string) (context : ConversationContext)
    (user_message knowledge : string) :
  exists sys older recent,
    _build_messages system_prompt context user_message knowledge
      = sys :: map (fun msg => mkChat (role msg) (content msg)) recent
               ++ [mkChat "user" user_message] /\
    messages context = older ++ recent /\
    length recent = Nat.min 10 (length (messages context)).
Proof.
  set (l := messages context).
  eexists _, (take (length l - 10) l), (drop (length l - 10) l).
  split; [reflexivity|split].
  - symmetry. apply take_drop.
  - rewrite length_drop. lia.
Qed.

(* ================================================================== *)
(** * Further properties of the code *)

(** ** Keyword, challenge and genre extraction *)

Lemma fold_append_filter (f : string -> bool) (l acc : list string) :
  fold_left (fun ks p => if f p then ks ++ [p] else ks) l acc = acc ++ List.filter f l.
Proof.
  revert acc. induction l as [|p l IH]; intros acc; simpl; [by rewrite app_nil_r|].
  destruct (f p); rewrite IH; [by rewrite <- app_assoc|reflexivity].
Qed.

Lemma kw_fold (m : string) (l acc : list string) :
  fold_left (fun keywords pattern =>
    if py_in pattern m then keywords ++ [pattern] else keywords) l acc
  = acc ++ List.filter (fun p => py_in p m) l.
Proof. exact (fold_append_filter (fun p => py_in p m) l acc). Qed.

Lemma extract_keywords_filter m :
  _extract_keywords m = List.filter (fun p => py_in p m) KEYWORD_PATTERNS.
Proof. unfold _extract_keywords. rewrite kw_fold. reflexivity. Qed.

Lemma filter_sublist {A} (f : A -> bool) (l : list A) : List.filter f l `sublist_of` l.
Proof.
  induction l as [|a l IH]; simpl; [constructor|].
  destruct (f a); [apply sublist_skip|apply sublist_cons]; exact IH.
Qed.

Lemma NoDup_list_filter {A} (f : A -> bool) (l : list A) :
  NoDup l -> NoDup (List.filter f l).
Proof.
  induction 1 as [|a l Ha Hnd IH]; simpl; [constructor|].
  destruct (f a); [|exact IH]. constructor; [|exact IH].
  rewrite list_elem_of_In, filter_In. rewrite list_elem_of_In in Ha. tauto.
Qed.

Lemma filter_found_spec (f : string -> bool) (tbl : list string) :
  NoDup tbl ->
  NoDup (List.filter f tbl) /\ List.filter f tbl `sublist_of` tbl /\
  (forall k, In k (List.filter f tbl) <-> In k tbl /\ f k = true).
Proof.
  intros Hnd. split; [apply NoDup_list_filter, Hnd|split; [apply filter_sublist|]].
  intros k. apply filter_In.
Qed.

(** [_extract_keywords] returns, without repetition and in the order of
    [keyword_patterns], exactly the patterns that occur in the message. *)
Theorem extract_keywords_found (m : string) :
  let ks := _extract_keywords m in
  NoDup ks /\ ks `sublist_of` KEYWORD_PATTERNS /\
  (forall k, In k ks <-> In k KEYWORD_PATTERNS /\ py_in k m = true).
Proof.
  cbv zeta. rewrite extract_keywords_filter. apply filter_found_spec.
  apply (bool_decide_unpack _). vm_compute. exact I.
Qed.

(** [_extract_challenges] returns, without repetition and in table order,
    exactly the challenge phrases that occur in the message. *)
Theorem extract_challenges_found (m : string) :
  let chs := _extract_challenges m in
  NoDup chs /\ chs `sublist_of` CHALLENGE_KEYWORDS /\
  (forall k, In k chs <-> In k CHALLENGE_KEYWORDS /\ py_in k m = true).
Proof.
  cbv zeta. unfold _extract_challenges. apply filter_found_spec.
  apply (bool_decide_unpack _). vm_compute. exact I.
Qed.

Lemma py_list_in_true x l : py_list_in x l = true -> In x l.
Proof.
  unfold py_list_in. intros H. apply existsb_exists in H as [y [Hy Heq]].
  apply String.eqb_eq in Heq. subst. exact Hy.
Qed.

Lemma extract_genres_loop_spec tbl m ml found :
  NoDup (found ++ map fst tbl) ->
  extract_genres_loop tbl m ml found
  = found ++ map fst (List.filter (fun e => existsb (fun k => py_in k m || py_in k ml) e.2) tbl).
Proof.
  revert found. induction tbl as [|[g kws] tbl IH]; intros found Hnd; simpl.
  - by rewrite app_nil_r.
  - destruct (existsb _ kws) eqn:Eh; simpl.
    + assert (Hg : py_list_in g found = false).
      { destruct (py_list_in g found) eqn:E; [|reflexivity].
        apply py_list_in_true, list_elem_of_In in E. simpl in Hnd.
        apply NoDup_app in Hnd as [_ [Hd _]]. exfalso.
        apply (Hd g E). left. }
      rewrite Hg, IH; [by rewrite <- app_assoc|].
      rewrite <- app_assoc. exact Hnd.
    + apply IH. simpl in Hnd.
      apply NoDup_app in Hnd as [H1 [H2 H3]]. apply NoDup_cons in H3 as [_ H3].
      apply NoDup_app. split; [exact H1|split; [|exact H3]].
      intros x Hx Hx'. apply (H2 x Hx). right. exact Hx'.
Qed.

Lemma NoDup_map_fst_filter {A B} (f : A * B -> bool) (l : list (A * B)) :
  NoDup (map fst l) -> NoDup (map fst (List.filter f l)).
Proof.
  induction l as [|e l IH]; simpl; [constructor|]. intros Hnd.
  apply NoDup_cons in Hnd as [Hn Hnd].
  destruct (f e); simpl; [|auto]. constructor; [|auto].
  rewrite list_elem_of_In in Hn |- *. intros Hin. apply Hn.
  apply in_map_iff in Hin as [e' [<- He']].
  apply filter_In in He' as [He' _]. apply in_map, He'.
Qed.

(** [_extract_genres] returns the genres of [GENRE_KEYWORDS], in table
    order, having a keyword in the message or in its lowered form; the
    [genre not in found_genres] test never rejects one, and the result has
    no duplicates. *)
Theorem extract_genres_table (m : string) :
  _extract_genres m
  = map fst (List.filter (fun e => existsb (fun k => py_in k m || py_in k (py_lower m)) e.2)
               GENRE_KEYWORDS) /\
  NoDup (_extract_genres m).
Proof.
  assert (Hnd : NoDup (map fst GENRE_KEYWORDS))
    by (apply (bool_decide_unpack _); vm_compute; exact I).
  assert (He : _extract_genres m
    = map fst (List.filter (fun e => existsb (fun k => py_in k m || py_in k (py_lower m)) e.2)
               GENRE_KEYWORDS))
    by (unfold _extract_genres; rewrite extract_genres_loop_spec; [reflexivity|exact Hnd]).
  split; [exact He|]. rewrite He. apply NoDup_map_fst_filter, Hnd.
Qed.

(** ** Occupation and record lookups *)

Lemma first_occupation_spec pats m :
  match first_occupation pats m with
  | Some o => exists pre pat post, pats = pre ++ (pat, o) :: post /\
              re_search pat m = true /\ Forall (fun e => re_search e.1 m = false) pre
  | None => Forall (fun e => re_search e.1 m = false) pats
  end.
Proof.
  induction pats as [|[pat occ] pats IH]; simpl; [constructor|].
  destruct (re_search pat m) eqn:E.
  - exists [], pat, pats. auto.
  - destruct (first_occupation pats m) as [o|].
    + destruct IH as [pre [p [post [-> [Hp Hf]]]]].
      exists ((pat, occ) :: pre), p, post. split; [reflexivity|split; [exact Hp|]].
      constructor; [exact E|exact Hf].
    + constructor; [exact E|exact IH].
Qed.

(** [_extract_occupation] returns the label of the first pattern with a
    match in the message, all earlier patterns failing, and [None] exactly
    when no pattern matches. *)
Theorem extract_occupation_first_match (m : string) :
  match _extract_occupation m with
  | Some o => exists pre pat post, OCCUPATION_PATTERNS = pre ++ (pat, o) :: post /\
              re_search pat m = true /\ Forall (fun e => re_search e.1 m = false) pre
  | None => Forall (fun e => re_search e.1 m = false) OCCUPATION_PATTERNS
  end.
Proof. apply first_occupation_spec. Qed.

(** [get_case_by_id] returns the first success case carrying the id, and
    [None] exactly when no case carries it. *)
Theorem get_case_by_id_first (success_cases : list SuccessCase) (id : string) :
  match get_case_by_id success_cases id with
  | Some r => exists pre post, success_cases = pre ++ r :: post /\ case_id r = id /\
              Forall (fun c => case_id c <> id) pre
  | None => Forall (fun c => case_id c <> id) success_cases
  end.
Proof.
  induction success_cases as [|c cs IH]; simpl; [constructor|].
  destruct (String.eqb_spec (case_id c) id) as [Heq|Hne].
  - exists [], cs. auto.
  - destruct (get_case_by_id cs id) as [r|].
    + destruct IH as [pre [post [-> [Hr Hf]]]].
      exists (c :: pre), post. split; [reflexivity|split; [exact Hr|constructor; assumption]].
    + constructor; assumption.
Qed.

(** [get_persona_description] gives the five personas five different
    descriptions, and any other key the description of the Unknown
    persona. *)
Theorem persona_description_distinct :
  (forall p q, get_persona_description (persona_value p)
               = get_persona_description (persona_value q) -> p = q) /\
  (forall s, (forall p, s <> persona_value p) ->
   get_persona_description s = get_persona_description (persona_value UNKNOWN)).
Proof.
  split.
  - intros p q H. destruct p, q; vm_compute in H; try discriminate H; reflexivity.
  - intros s Hs. unfold get_persona_description at 1, dict_get at 1.
    unfold persona_descriptions at 1. cbn [find fst].
    rewrite (proj2 (String.eqb_neq _ _) (not_eq_sym (Hs SIDE_WORKER))),
      (proj2 (String.eqb_neq _ _) (not_eq_sym (Hs CHILD_RAISING_MOM))),
      (proj2 (String.eqb_neq _ _) (not_eq_sym (Hs BUSINESS_OWNER))),
      (proj2 (String.eqb_neq _ _) (not_eq_sym (Hs SELF_ACHIEVER))),
      (proj2 (String.eqb_neq _ _) (not_eq_sym (Hs UNKNOWN))).
    vm_compute. reflexivity.
Qed.

(** ** Search results and knowledge assembly *)

Lemma py_slice_to_length_exact {A} (S : list A) (limit : Z) :
  length (py_slice_to S limit)
  = if Z.leb 0 limit then Nat.min (Z.to_nat limit) (length S)
    else (length S - Z.to_nat (- limit))%nat.
Proof. unfold py_slice_to. destruct (Z.leb 0 limit); rewrite length_firstn; lia. Qed.

Lemma ranked_length {A} (score : A -> Z) (L : list A) (limit : Z) :
  length (map snd (py_slice_to (sort_desc (keyed score L)) limit))
  = if Z.leb 0 limit then Nat.min (Z.to_nat limit) (length L)
    else (length L - Z.to_nat (- limit))%nat.
Proof.
  rewrite length_map, py_slice_to_length_exact, (Permutation_length (sort_desc_perm _)).
  unfold keyed. rewrite length_map. reflexivity.
Qed.

(** Both searches return exactly [min limit n] records for [limit >= 0],
    where [n] counts the non-excluded records of positive score, and
    [n - |limit|] (at least 0) records for a negative [limit]. *)
Theorem search_result_length
    (persona_arg : option string) (challenges_arg : list string)
    (genre_arg : option string) (keywords exclude_ids : list string)
    (cases : list SuccessCase)
    (faq_keywords_arg : list string) (category_arg : option string) (faqs : list FAQ)
    (limit : Z) :
  let n := length (List.filter (fun c => negb (py_list_in (case_id c) exclude_ids)
             && Z.ltb 0 (case_score persona_arg challenges_arg genre_arg keywords c)) cases) in
  let k := length (List.filter (fun f => Z.ltb 0 (faq_score faq_keywords_arg category_arg f)) faqs) in
  length (search_success_cases persona_arg challenges_arg genre_arg keywords exclude_ids limit cases)
    = (if Z.leb 0 limit then Nat.min (Z.to_nat limit) n else n - Z.to_nat (- limit))%nat /\
  length (search_faqs faq_keywords_arg category_arg limit faqs)
    = (if Z.leb 0 limit then Nat.min (Z.to_nat limit) k else k - Z.to_nat (- limit))%nat.
Proof.
  cbv zeta. unfold search_success_cases, search_faqs. cbv zeta.
  rewrite collect_cases_keyed, collect_faqs_keyed, !ranked_length. split; reflexivity.
Qed.

Lemma search_cases_in persona_arg challenges_arg genre_arg keywords exclude_ids limit cases r :
  In r (search_success_cases persona_arg challenges_arg genre_arg keywords exclude_ids limit cases) ->
  In r cases /\ ~ In (case_id r) exclude_ids.
Proof.
  set (cscore := case_score persona_arg challenges_arg genre_arg keywords).
  set (ccands := List.filter (fun c => negb (py_list_in (case_id c) exclude_ids)
                                       && Z.ltb 0 (cscore c)) cases).
  assert (Hpos : forall a, In a ccands -> 0 < cscore a).
  { intros a Ha. apply filter_In in Ha as [_ Ha].
    apply andb_prop in Ha as [_ Ha]. apply Z.ltb_lt in Ha. exact Ha. }
  destruct (ranked_output cscore ccands limit Hpos) as [H1 _].
  unfold search_success_cases. rewrite collect_cases_keyed. intros Hr.
  apply H1 in Hr as [_ Hr]. apply filter_In in Hr as [Hin Hr].
  apply andb_prop in Hr as [Hr _]. apply negb_true_iff in Hr.
  split; [exact Hin|apply py_list_in_false, Hr].
Qed.

Lemma search_faqs_in keywords category_arg limit faqs f :
  In f (search_faqs keywords category_arg limit faqs) -> In f faqs.
Proof.
  set (fscore := faq_score keywords category_arg).
  set (fcands := List.filter (fun f => Z.ltb 0 (fscore f)) faqs).
  assert (Hpos : forall a, In a fcands -> 0 < fscore a).
  { intros a Ha. apply filter_In in Ha as [_ Ha]. apply Z.ltb_lt in Ha. exact Ha. }
  destruct (ranked_output fscore fcands limit Hpos) as [H1 _].
  unfold search_faqs. rewrite collect_faqs_keyed. intros Hr.
  apply H1 in Hr as [_ Hr]. apply filter_In in Hr as [Hin _]. exact Hin.
Qed.

Lemma search_cases_length_2 persona_arg challenges_arg genre_arg keywords exclude_ids cases :
  (length (search_success_cases persona_arg challenges_arg genre_arg keywords exclude_ids 2 cases)
   <= 2)%nat.
Proof.
  unfold search_success_cases. cbv zeta. rewrite collect_cases_keyed, ranked_length. exact (Nat.le_min_l _ _).
Qed.

Lemma search_faqs_length_2 keywords category_arg faqs :
  (length (search_faqs keywords category_arg 2 faqs) <= 2)%nat.
Proof. unfold search_faqs. rewrite collect_faqs_keyed, ranked_length. exact (Nat.le_min_l _ _). Qed.

Lemma relevant_knowledge_shape_aux (success_cases : list SuccessCase) (faqs : list FAQ)
    (context : ConversationContext) (user_message : string) :
  exists cs fs,
    _get_relevant_knowledge success_cases faqs context user_message
      = py_join NL (knowledge_section "## 参考にできる成功事例" (map render_case cs)
                    ++ knowledge_section "## 関連するFAQ" (map render_faq fs)) /\
    (length cs <= 2)%nat /\ (length fs <= 2)%nat /\
    (forall c, In c cs -> In c success_cases /\ ~ In (case_id c) (mentioned_cases context)) /\
    (forall f, In f fs -> In f faqs) /\
    (is_question_like user_message = false -> fs = []).
Proof.
  unfold _get_relevant_knowledge. cbv zeta.
  set (cs := search_success_cases _ _ _ _ _ _ _).
  set (fs0 := search_faqs _ _ _ _).
  assert (Hc : forall c, In c cs -> In c success_cases /\ ~ In (case_id c) (mentioned_cases context))
    by (intros c Hc; exact (search_cases_in _ _ _ _ _ _ _ c Hc)).
  assert (Hcl : (length cs <= 2)%nat) by apply search_cases_length_2.
  assert (Hf : forall f, In f fs0 -> In f faqs) by (intros f Hf; exact (search_faqs_in _ _ _ _ f Hf)).
  assert (Hfl : (length fs0 <= 2)%nat) by apply search_faqs_length_2.
  clearbody cs fs0.
  exists cs, (if is_question_like user_message then fs0 else []).
  split.
  - destruct cs, (is_question_like user_message), fs0; simpl; rewrite ?app_nil_r; reflexivity.
  - destruct (is_question_like user_message); simpl;
      (split; [exact Hcl|split; [simpl; lia|split; [exact Hc|split]]]);
      [exact Hf|discriminate|intros f []|reflexivity].
Qed.

(** [_get_relevant_knowledge] renders at most two success cases, all from
    the corpus and none of them already mentioned in the conversation,
    under their header, followed by at most two FAQs of the corpus under
    theirs; headers of empty sections are left out, and no FAQ is rendered
    for a message that does not look like a question. *)
Theorem relevant_knowledge_shape (success_cases : list SuccessCase) (faqs : list FAQ)
    (context : ConversationContext) (user_message : string) :
  exists cs fs,
    _get_relevant_knowledge success_cases faqs context user_message
      = py_join NL (knowledge_section "## 参考にできる成功事例" (map render_case cs)
                    ++ knowledge_section "## 関連するFAQ" (map render_faq fs)) /\
    (length cs <= 2)%nat /\ (length fs <= 2)%nat /\
    (forall c, In c cs -> In c success_cases /\ ~ In (case_id c) (mentioned_cases context)) /\
    (forall f, In f fs -> In f faqs) /\
    (is_question_like user_message = false -> fs = []).
Proof. exact (relevant_knowledge_shape_aux success_cases faqs context user_message). Qed.


(** ** Profile fields, welcome message *)

Lemma update_profile_ids m c :
  user_id (update_profile m c) = user_id c /\ display_name (update_profile m c) = display_name c /\
  goals (update_profile m c) = goals c /\ status (update_profile m c) = status c.
Proof.
  unfold update_profile.
  destruct (str_truthy _ && _), (_extract_genres m), (_extract_challenges m);
    repeat split; reflexivity.
Qed.

Lemma analyze_message_ids m c :
  user_id (analyze_message m c) = user_id c /\ display_name (analyze_message m c) = display_name c /\
  goals (analyze_message m c) = goals c /\ status (analyze_message m c) = status c.
Proof.
  destruct (update_profile_ids m c) as (H1 & H2 & H3 & H4).
  unfold analyze_message. cbv zeta.
  set (c3 := update_profile m c) in *. clearbody c3.
  destruct (persona_eqb (persona c3) UNKNOWN || String.eqb (persona_value (persona c3)) "未特定");
    [cbn [set_persona user_id display_name goals status]|]; repeat split; assumption.
Qed.

(** Along any sequence of utterances, [analyze_message] never changes the
    user id, the display name, the goals or the status of the profile. *)
Theorem analyze_messages_keep_identity (ms : list string) (c : Customer) :
  let c' := analyze_messages ms c in
  user_id c' = user_id c /\ display_name c' = display_name c /\
  goals c' = goals c /\ status c' = status c.
Proof.
  cbv zeta. unfold analyze_messages.
  apply (fold_left_invariant (fun c' => user_id c' = user_id c /\ display_name c' = display_name c /\
                                        goals c' = goals c /\ status c' = status c));
    [|repeat split].
  intros c' m (H1 & H2 & H3 & H4).
  destruct (analyze_message_ids m c') as (E1 & E2 & E3 & E4).
  rewrite E1, E2, E3, E4. auto.
Qed.

Lemma prefixb_app_self k s : prefixb k (k +:+ s) = true.
Proof. induction k as [|a k IH]; simpl; [reflexivity|]. rewrite Ascii.eqb_refl. exact IH. Qed.

Lemma py_in_prefix k s : prefixb k s = true -> py_in k s = true.
Proof. intros H. destruct s; cbn [py_in]; rewrite H; reflexivity. Qed.

Lemma py_in_app_l k a s : py_in k s = true -> py_in k (a +:+ s) = true.
Proof.
  induction a as [|x a IH]; intros H; [exact H|].
  change (py_in k (String x a +:+ s))
    with (prefixb k (String x (a +:+ s)) || py_in k (a +:+ s)).
  rewrite (IH H). apply orb_true_r.
Qed.

(** [generate_welcome_message] starts with the greeting, contains the
    display name followed by [さん、] when the name is non-empty, and is the
    nameless greeting when the name is absent or empty. *)
Theorem welcome_message_name (c : Customer) :
  prefixb "こんにちは！" (generate_welcome_message c) = true /\
  (forall n, display_name c = Some n -> n <> "" ->
     py_in (n +:+ "さん、") (generate_welcome_message c) = true) /\
  ((display_name c = None \/ display_name c = Some "") ->
     generate_welcome_message c = generate_welcome_message (new_customer (user_id c))).
Proof.
  unfold generate_welcome_message. cbv zeta. split; [apply prefixb_app_self|split].
  - intros n Hn Hne. rewrite Hn. destruct n as [|a n]; [congruence|].
    cbn [str_truthy default]. apply py_in_app_l, py_in_prefix, prefixb_app_self.
  - intros [H|H]; rewrite H; reflexivity.
Qed.

(** ** Conversation history *)

Lemma insert_desc_last {A} (x : Z * A) (l : list (Z * A)) :
  Forall (fun y => x.1 < y.1) l -> insert_desc x l = l ++ [x].
Proof.
  induction 1 as [|y l Hy _ IH]; simpl; [reflexivity|].
  destruct (Z.ltb_spec x.1 y.1); [|lia]. rewrite IH. reflexivity.
Qed.

Lemma sort_desc_rev {A} (l : list (Z * A)) :
  StronglySorted (fun a b => a.1 < b.1) l -> sort_desc l = rev l.
Proof.
  induction 1 as [|x l Hs IH Hall]; simpl; [reflexivity|].
  rewrite IH. apply insert_desc_last. apply List.Forall_forall. intros y Hy.
  apply (proj2 (in_rev _ _)) in Hy. rewrite List.Forall_forall in Hall. auto.
Qed.

Lemma StronglySorted_list_filter {A} (R : A -> A -> Prop) (f : A -> bool) (l : list A) :
  StronglySorted R l -> StronglySorted R (List.filter f l).
Proof.
  induction 1 as [|a l Hs IH Hall]; simpl; [constructor|].
  destruct (f a); [|exact IH]. constructor; [exact IH|].
  apply List.Forall_forall. intros y Hy. apply filter_In in Hy as [Hy _].
  rewrite List.Forall_forall in Hall. auto.
Qed.

Lemma StronglySorted_map_of {A B} (R : B -> B -> Prop) (g : A -> B) (l : list A) :
  StronglySorted (fun a b => R (g a) (g b)) l -> StronglySorted R (map g l).
Proof.
  induction 1 as [|a l Hs IH Hall]; simpl; [constructor|].
  constructor; [exact IH|]. apply Forall_map. exact Hall.
Qed.

Lemma history_last (rows : list MessageRow) (uid : string) (limit : nat) :
  StronglySorted (fun a b => row_timestamp a < row_timestamp b) rows ->
  get_conversation_history rows uid limit
  = py_last limit (map row_message
      (List.filter (fun r => String.eqb (msg_user_id (row_message r)) uid) rows)).
Proof.
  intros Hs. unfold get_conversation_history. cbv zeta.
  set (sel := List.filter _ rows).
  assert (Hsel : StronglySorted (fun a b => row_timestamp a < row_timestamp b) sel)
    by (apply StronglySorted_list_filter, Hs).
  rewrite sort_desc_rev.
  2: { apply (StronglySorted_map_of (fun a b => a.1 < b.1)
                (fun r => (row_timestamp r, row_message r))). exact Hsel. }
  assert (Hm : map snd (map (fun r => (row_timestamp r, row_message r)) sel)
               = map row_message sel) by (rewrite map_map; reflexivity).
  rewrite map_rev, Hm, firstn_rev, rev_involutive. reflexivity.
Qed.

(** When the table's timestamps increase in insertion order,
    [get_conversation_history] returns the last [limit] messages of the
    user, oldest first. *)
Theorem history_is_last_messages (rows : list MessageRow) (uid : string) (limit : nat) :
  StronglySorted (fun a b => row_timestamp a < row_timestamp b) rows ->
  get_conversation_history rows uid limit
  = py_last limit (map row_message
      (List.filter (fun r => String.eqb (msg_user_id (row_message r)) uid) rows)).
Proof. exact (history_last rows uid limit). Qed.

Lemma py_last_py_last {A} (n k : nat) (l : list A) :
  (n <= k)%nat -> py_last n (py_last k l) = py_last n l.
Proof. intros H. unfold py_last. rewrite length_drop, drop_drop. f_equal. lia. Qed.

Lemma build_messages_shape sp ctx m k :
  exists sys, _build_messages sp ctx m k
    = sys :: map (fun msg => mkChat (role msg) (content msg)) (py_last 10 (messages ctx))
          ++ [mkChat "user" m].
Proof. eexists. reflexivity. Qed.

Lemma request_context sp success_cases faqs ctx m :
  generate_response_request sp success_cases faqs ctx m
  = (mkContext (analyze_message m (customer ctx)) (messages ctx) (mentioned_cases ctx),
     _build_messages sp (mkContext (analyze_message m (customer ctx)) (messages ctx)
                           (mentioned_cases ctx)) m
       (_get_relevant_knowledge success_cases faqs
          (mkContext (analyze_message m (customer ctx)) (messages ctx) (mentioned_cases ctx)) m)).
Proof. reflexivity. Qed.

(** For a context loaded by [get_conversation_context] from a table with
    increasing timestamps, the request built by [generate_response] carries
    the last ten (or fewer) messages of the user, oldest first, between the
    system message and the current message. *)
Theorem request_history_from_store (system_prompt : string)
    (success_cases : list SuccessCase) (faqs : list FAQ)
    (stored : option Customer) (rows : list MessageRow)
    (mentioned_rows : list (string * string)) (uid user_message : string) :
  StronglySorted (fun a b => row_timestamp a < row_timestamp b) rows ->
  let own := map row_message
               (List.filter (fun r => String.eqb (msg_user_id (row_message r)) uid) rows) in
  let context := get_conversation_context stored rows mentioned_rows uid in
  exists sys,
    snd (generate_response_request system_prompt success_cases faqs context user_message)
    = sys :: map (fun msg => mkChat (role msg) (content msg)) (py_last 10 own)
          ++ [mkChat "user" user_message].
Proof.
  intros Hs own context. rewrite request_context. cbn [snd].
  match goal with
  | |- exists _, _build_messages ?a ?b ?c ?d = _ =>
      destruct (build_messages_shape a b c d) as [sys Hb]
  end.
  exists sys. rewrite Hb. cbn [messages]. unfold context, get_conversation_context.
  cbn [messages]. rewrite history_last by exact Hs.
  rewrite py_last_py_last by lia. reflexivity.
Qed.

(** A case recorded in the [mentioned_cases] table for the user is never
    offered again: the knowledge in the request built by [generate_response]
    for a context loaded by [get_conversation_context] renders only cases of
    the corpus with no [(user_id, case_id)] row. *)
Theorem request_knowledge_skips_recorded_cases (system_prompt : string)
    (success_cases : list SuccessCase) (faqs : list FAQ)
    (stored : option Customer) (rows : list MessageRow)
    (mentioned_rows : list (string * string)) (uid user_message : string) :
  let loaded := get_conversation_context stored rows mentioned_rows uid in
  let context := fst (generate_response_request system_prompt success_cases faqs
                        loaded user_message) in
  exists cs fs,
    snd (generate_response_request system_prompt success_cases faqs loaded user_message)
    = _build_messages system_prompt context user_message
        (py_join NL (knowledge_section "## 参考にできる成功事例" (map render_case cs)
                     ++ knowledge_section "## 関連するFAQ" (map render_faq fs))) /\
    (forall c, In c cs -> In c success_cases /\ ~ In (uid, case_id c) mentioned_rows).
Proof.
  cbv zeta. rewrite request_context. cbn [fst snd].
  set (ctx := mkContext _ _ _).
  destruct (relevant_knowledge_shape_aux success_cases faqs ctx user_message)
    as (cs & fs & Hk & _ & _ & Hc & _).
  exists cs, fs. split; [rewrite Hk; reflexivity|].
  intros c Hin. destruct (Hc c Hin) as [H1 H2]. split; [exact H1|].
  intros Hm. apply H2. unfold ctx. cbn [mentioned_cases].
  unfold get_conversation_context. cbn [mentioned_cases].
  change (case_id c) with ((uid, case_id c).2). apply in_map.
  apply filter_In. split; [exact Hm|]. apply String.eqb_refl.
Qed.

(** ** Witnesses *)

Lemma history_is_last_messages_witness :
  StronglySorted (fun a b => row_timestamp a < row_timestamp b) sample_rows /\
  get_conversation_history sample_rows "u1" 2
  = py_last 2 (map row_message
      (List.filter (fun r => String.eqb (msg_user_id (row_message r)) "u1") sample_rows)).
Proof.
  assert (Hs : StronglySorted (fun a b => row_timestamp a < row_timestamp b) sample_rows)
    by (repeat constructor; simpl; lia).
  split; [exact Hs|exact (history_is_last_messages sample_rows "u1" 2 Hs)].
Defined.

Lemma request_history_from_store_witness :
  StronglySorted (fun a b => row_timestamp a < row_timestamp b) sample_rows /\
  (let own := map row_message
                (List.filter (fun r => String.eqb (msg_user_id (row_message r)) "u1") sample_rows) in
   let context := get_conversation_context None sample_rows [("u1", "case_001")] "u1" in
   exists sys,
     snd (generate_response_request "S" [sample_case_1; sample_case_2] [sample_faq]
            context "料金はいくらですか？")
     = sys :: map (fun msg => mkChat (role msg) (content msg)) (py_last 10 own)
           ++ [mkChat "user" "料金はいくらですか？"]).
Proof.
  assert (Hs : StronglySorted (fun a b => row_timestamp a < row_timestamp b) sample_rows)
    by (repeat constructor; simpl; lia).
  split; [exact Hs|].
  exact (request_history_from_store "S" [sample_case_1; sample_case_2] [sample_faq] None
           sample_rows [("u1", "case_001")] "u1" "料金はいくらですか？" Hs).
Defined.
